(** * BSF cold-store gas simulator: physics engine, fan staging and
      autopilot loop of [BSF_GasSim_v52.py]

    The Python program computes with IEEE doubles.  This development
    idealises them as real numbers ([R] of the Standard Library):
    [float] and [np.float64] values are reals, [np.pi] is [PI], [np.sin] and
    [np.exp] are [sin] and [exp], and [round(x, 1)] rounds the exact real
    to the nearest tenth, ties to even.  Operations that leave the reals
    are results of an error type: a division by zero, and a NaN coming out
    of a fractional power of a negative base. *)

From Stdlib Require Import Reals Lra Lia ZArith Ascii String List Bool.
Import ListNotations.

Open Scope R_scope.

(** ** Outcomes of Python expressions *)

Inductive pyerr : Type :=
| ZeroDivisionError
| NotANumber.

Inductive pyres (A : Type) : Type :=
| Ok (a : A)
| Err (e : pyerr).

Arguments Ok {A} a.
Arguments Err {A} e.

Definition bind {A B : Type} (c : pyres A) (k : A -> pyres B) : pyres B :=
  match c with
  | Ok a => k a
  | Err e => Err e
  end.

Notation "x <- c ;; k" := (bind c (fun x => k))
  (at level 61, c at next level, right associativity).

(** ** Numeric primitives *)

Module Num.

(** [a / b] on floats. *)
Definition div (a b : R) : pyres R :=
  if Req_dec_T b 0 then Err ZeroDivisionError else Ok (a / b).

(** [a > b], [a < b] as Python booleans. *)
Definition gtb (a b : R) : bool := if Rgt_dec a b then true else false.
Definition ltb (a b : R) : bool := if Rlt_dec a b then true else false.

(** Nearest integer, ties to even ([np.rint], and the rounding step of
    [round]). *)
Definition rint (x : R) : Z :=
  let n := Int_part x in
  let f := frac_part x in
  if Rlt_dec f (1 / 2) then n
  else if Rlt_dec (1 / 2) f then (n + 1)%Z
  else if Z.even n then n else (n + 1)%Z.

(** [round(x, 1)]. *)
Definition round1 (x : R) : R := IZR (rint (x * 10)) / 10.

(** [b ** 1.8] on [np.float64]: a positive base goes through [exp] and
    [ln], zero gives zero, a negative base gives NaN. *)
Definition pow_1_8 (b : R) : pyres R :=
  if Rlt_dec 0 b then Ok (Rpower b 1.8)
  else if Req_dec_T b 0 then Ok 0
  else Err NotANumber.

End Num.

(** ** Room parameters, physical constants, fan layout (lines 709-762) *)

Definition Z1_L : R := 21.359.
Definition Z1_B : R := 9.750.
Definition Z1_H : R := 3.800.
Definition Z2_L : R := 3.800.
Definition Z2_B : R := 2.900.
Definition Z2_H : R := 3.800.
Definition VOL_Z1 : R := Z1_L * Z1_B * Z1_H.
Definition VOL_Z2 : R := Z2_L * Z2_B * Z2_H.
Definition Z1_LARVEN_MAX : Z := 51858.
Definition Z2_LARVEN_MAX : Z := 7560.

Definition RHO_CO2 : R := 1.842.
Definition RHO_NH3 : R := 0.769.
Definition CO2_AMBIENT : R := 420.0.

Definition FAN_Z1_MAX_M3H : R := 60000.0.
Definition FAN_Z2_MAX_M3H : R := 60000.0.

Definition CO2_DAYS : Z := 8.

(** Colours used in the stage tuples. *)
Definition GREEN : string := "#6EE87A".
Definition RED : string := "#EF476F".
Definition ORANGE : string := "#FF9B42".
Definition MUTED : string := "#2C4560".

(** [fan_m3h(pct, vol, max_q=None)]: volume flow in m3/h. *)
Definition fan_m3h (pct vol : R) (max_q : option R) : R :=
  let max_q :=
    match max_q with
    | None => vol * 6.0
    | Some q => q
    end in
  Rmax (pct / 100.0 * max_q) 1.0.

(** [fan_m3h_z2(pct)]. *)
Definition fan_m3h_z2 (pct : R) : R := fan_m3h pct VOL_Z2 (Some FAN_Z2_MAX_M3H).

(** ** Emission rates and mass balance (lines 1117-1159) *)

(** The two [return] expressions of [nh3_rate_g_kg_h], as functions of
    the base rate [b] and of [x = day / CO2_DAYS]. *)
Definition nh3_linear_branch (b x : R) : R := b * (1.0 + 0.5 * x / 0.45).
Definition nh3_exp_branch (b x : R) : R := b * 1.5 * exp (2.6 * (x - 0.45)).

(** [calc_ppm(mass_kg, rate_g_kg_h, rho_gas, flow_pct, vol, ambient)]:
    steady-state concentration from the mass balance. *)
Definition calc_ppm (mass_kg rate_g_kg_h rho_gas flow_pct vol ambient : R)
  : pyres R :=
  let E_kg_h := mass_kg * rate_g_kg_h / 1000.0 in
  E_m3_h <- Num.div E_kg_h rho_gas ;;
  let Q_m3_h := fan_m3h flow_pct vol None in
  q <- Num.div E_m3_h Q_m3_h ;;
  let c_ss := ambient + q * 1e6 in
  Ok (Num.round1 c_ss).

(** The editable module globals: stage thresholds (integers from the
    number inputs) and the two base emission rates. *)
Record Globals : Type := mkGlobals {
  CO2_S1 : Z;
  CO2_S2 : Z;
  CO2_S3 : Z;
  NH3_S1 : Z;
  NH3_S2 : Z;
  NH3_S3 : Z;
  CO2_RATE_AVG : R;
  NH3_RATE_BASE : R
}.

(** The values the module starts with (lines 746-754). *)
Definition default_globals : Globals :=
  {| CO2_S1 := 3000; CO2_S2 := 5000; CO2_S3 := 10000;
     NH3_S1 := 12; NH3_S2 := 25; NH3_S3 := 50;
     CO2_RATE_AVG := 0.125; NH3_RATE_BASE := 0.001 |}.

Section Engine.

Variable g : Globals.

(** [co2_rate_g_kg_h(day, rate_avg=None)]. *)
Definition co2_rate_g_kg_h (day : R) (rate_avg : option R) : pyres R :=
  let r :=
    match rate_avg with
    | Some r => r
    | None => CO2_RATE_AVG g
    end in
  let x := day / IZR CO2_DAYS in
  p <- Num.pow_1_8 (sin (PI * x)) ;;
  Ok (r * (0.3 + 2.7 * p)).

(** [nh3_rate_g_kg_h(day, rate_base=None)]. *)
Definition nh3_rate_g_kg_h (day : R) (rate_base : option R) : R :=
  let b :=
    match rate_base with
    | Some b => b
    | None => NH3_RATE_BASE g
    end in
  let x := day / IZR CO2_DAYS in
  if Num.ltb x 0.45 then nh3_linear_branch b x
  else nh3_exp_branch b x.

(** [macro_co2(mass_kg, flow_pct, vol, day, co2_r=None)]. *)
Definition macro_co2 (mass_kg flow_pct vol day : R) (co2_r : option R)
  : pyres R :=
  let r :=
    match co2_r with
    | Some r => r
    | None => CO2_RATE_AVG g
    end in
  rate <- co2_rate_g_kg_h day (Some r) ;;
  calc_ppm mass_kg rate RHO_CO2 flow_pct vol CO2_AMBIENT.

(** [macro_nh3(mass_kg, flow_pct, vol, day, nh3_r=None)]. *)
Definition macro_nh3 (mass_kg flow_pct vol day : R) (nh3_r : option R)
  : pyres R :=
  let b :=
    match nh3_r with
    | Some b => b
    | None => NH3_RATE_BASE g
    end in
  calc_ppm mass_kg (nh3_rate_g_kg_h day (Some b)) RHO_NH3 flow_pct vol 0.02.

(** ** Fan staging (lines 1161-1178) *)

(** [autopilot_flow(co2, nh3, day, base_pct)]. *)
Definition autopilot_flow (co2 nh3 day base_pct : R) : R :=
  if Num.gtb co2 (IZR (CO2_S3 g)) || Num.gtb nh3 (IZR (NH3_S3 g)) then 100.0
  else if Num.gtb co2 (IZR (CO2_S2 g)) || Num.gtb nh3 (IZR (NH3_S2 g)) then 70.0
  else if Num.gtb co2 (IZR (CO2_S1 g)) || Num.gtb nh3 (IZR (NH3_S1 g)) then 40.0
  else base_pct.

(** [fan_stage(co2, nh3)]: stage number, label, colour, fan percent. *)
Definition fan_stage (co2 nh3 : R) : Z * string * string * Z :=
  if Num.gtb co2 (IZR (CO2_S3 g)) || Num.gtb nh3 (IZR (NH3_S3 g))
  then (3%Z, "ALARM — 100%"%string, RED, 100%Z)
  else if Num.gtb co2 (IZR (CO2_S2 g)) || Num.gtb nh3 (IZR (NH3_S2 g))
  then (2%Z, "STUFE 2 — 70%"%string, ORANGE, 70%Z)
  else if Num.gtb co2 (IZR (CO2_S1 g)) || Num.gtb nh3 (IZR (NH3_S1 g))
  then (1%Z, "STUFE 1 — 40%"%string, GREEN, 40%Z)
  else (0%Z, "ECO — 20%"%string, MUTED, 20%Z).

(** [get_stufe(co2, nh3)]: stage number, label, colour, CSS class. *)
Definition get_stufe (co2 nh3 : R) : Z * string * string * string :=
  if Num.gtb co2 (IZR (CO2_S3 g)) || Num.gtb nh3 (IZR (NH3_S3 g))
  then (3%Z, "ALARM — EVAKUIERUNG"%string, RED, "red"%string)
  else if Num.gtb co2 (IZR (CO2_S2 g)) || Num.gtb nh3 (IZR (NH3_S2 g))
  then (2%Z, "WARNUNG opt/akust"%string, ORANGE, "ora"%string)
  else if Num.gtb co2 (IZR (CO2_S1 g)) || Num.gtb nh3 (IZR (NH3_S1 g))
  then (1%Z, "BETRIEB STUFE 1"%string, GREEN, "grn"%string)
  else (0%Z, "STANDBY / ECO"%string, MUTED, EmptyString).

End Engine.

(** ** History series (lines 1421-1426 and 1437-1442) *)

Section History.

Context {A : Type}.

(** [lst[-n:]]. *)
Definition slice_last (n : nat) (lst : list A) : list A :=
  skipn (length lst - n) lst.

(** One round of the loop body: [append], then trim to the last 200
    entries once the length exceeds 200. *)
Definition hist_append (lst : list A) (val : A) : list A :=
  let lst := lst ++ [val] in
  if (200 <? length lst)%nat then slice_last 200 lst else lst.

End History.

(** ** Session state (lines 1106-1114) *)

(** The keys of [_def], and the two rate keys the sidebar writes
    (lines 1287-1288), which exist only once it has run. *)
Record SessionState : Type := mkSession {
  sim_active : bool;
  sim_step : Z;
  mast_day : R;
  flow_z1 : R;
  flow_z2 : R;
  hist_t : list R;
  hist_co2_z1 : list R;
  hist_nh3_z1 : list R;
  hist_co2_z2 : list R;
  hist_nh3_z2 : list R;
  hist_flow_z1 : list R;
  co2_rate_avg : option R;
  nh3_rate_base : option R
}.

(** Keys of the session state that [_def] and the START handler assign. *)
Inductive key : Type :=
| K_sim_active | K_sim_step | K_mast_day | K_flow_z1 | K_flow_z2
| K_hist_t | K_hist_co2_z1 | K_hist_nh3_z1
| K_hist_co2_z2 | K_hist_nh3_z2 | K_hist_flow_z1.

Inductive value : Type :=
| VBool (b : bool)
| VInt (z : Z)
| VFloat (r : R)
| VList (l : list R).

(** [st.session_state[k] = v].  The defaults and the handlers only ever
    store a value of the key's own type; an ill-typed store leaves the
    field alone. *)
Definition set_key (k : key) (v : value) (s : SessionState) : SessionState :=
  match k, v with
  | K_sim_active, VBool b =>
      mkSession b (sim_step s) (mast_day s) (flow_z1 s) (flow_z2 s)
        (hist_t s) (hist_co2_z1 s) (hist_nh3_z1 s) (hist_co2_z2 s)
        (hist_nh3_z2 s) (hist_flow_z1 s) (co2_rate_avg s) (nh3_rate_base s)
  | K_sim_step, VInt z =>
      mkSession (sim_active s) z (mast_day s) (flow_z1 s) (flow_z2 s)
        (hist_t s) (hist_co2_z1 s) (hist_nh3_z1 s) (hist_co2_z2 s)
        (hist_nh3_z2 s) (hist_flow_z1 s) (co2_rate_avg s) (nh3_rate_base s)
  | K_mast_day, VFloat r =>
      mkSession (sim_active s) (sim_step s) r (flow_z1 s) (flow_z2 s)
        (hist_t s) (hist_co2_z1 s) (hist_nh3_z1 s) (hist_co2_z2 s)
        (hist_nh3_z2 s) (hist_flow_z1 s) (co2_rate_avg s) (nh3_rate_base s)
  | K_flow_z1, VFloat r =>
      mkSession (sim_active s) (sim_step s) (mast_day s) r (flow_z2 s)
        (hist_t s) (hist_co2_z1 s) (hist_nh3_z1 s) (hist_co2_z2 s)
        (hist_nh3_z2 s) (hist_flow_z1 s) (co2_rate_avg s) (nh3_rate_base s)
  | K_flow_z2, VFloat r =>
      mkSession (sim_active s) (sim_step s) (mast_day s) (flow_z1 s) r
        (hist_t s) (hist_co2_z1 s) (hist_nh3_z1 s) (hist_co2_z2 s)
        (hist_nh3_z2 s) (hist_flow_z1 s) (co2_rate_avg s) (nh3_rate_base s)
  | K_hist_t, VList l =>
      mkSession (sim_active s) (sim_step s) (mast_day s) (flow_z1 s) (flow_z2 s)
        l (hist_co2_z1 s) (hist_nh3_z1 s) (hist_co2_z2 s)
        (hist_nh3_z2 s) (hist_flow_z1 s) (co2_rate_avg s) (nh3_rate_base s)
  | K_hist_co2_z1, VList l =>
      mkSession (sim_active s) (sim_step s) (mast_day s) (flow_z1 s) (flow_z2 s)
        (hist_t s) l (hist_nh3_z1 s) (hist_co2_z2 s)
        (hist_nh3_z2 s) (hist_flow_z1 s) (co2_rate_avg s) (nh3_rate_base s)
  | K_hist_nh3_z1, VList l =>
      mkSession (sim_active s) (sim_step s) (mast_day s) (flow_z1 s) (flow_z2 s)
        (hist_t s) (hist_co2_z1 s) l (hist_co2_z2 s)
        (hist_nh3_z2 s) (hist_flow_z1 s) (co2_rate_avg s) (nh3_rate_base s)
  | K_hist_co2_z2, VList l =>
      mkSession (sim_active s) (sim_step s) (mast_day s) (flow_z1 s) (flow_z2 s)
        (hist_t s) (hist_co2_z1 s) (hist_nh3_z1 s) l
        (hist_nh3_z2 s) (hist_flow_z1 s) (co2_rate_avg s) (nh3_rate_base s)
  | K_hist_nh3_z2, VList l =>
      mkSession (sim_active s) (sim_step s) (mast_day s) (flow_z1 s) (flow_z2 s)
        (hist_t s) (hist_co2_z1 s) (hist_nh3_z1 s) (hist_co2_z2 s)
        l (hist_flow_z1 s) (co2_rate_avg s) (nh3_rate_base s)
  | K_hist_flow_z1, VList l =>
      mkSession (sim_active s) (sim_step s) (mast_day s) (flow_z1 s) (flow_z2 s)
        (hist_t s) (hist_co2_z1 s) (hist_nh3_z1 s) (hist_co2_z2 s)
        (hist_nh3_z2 s) l (co2_rate_avg s) (nh3_rate_base s)
  | _, _ => s
  end.

(** [st.session_state[lst]] for the six history keys. *)
Definition get_hist (k : key) (s : SessionState) : list R :=
  match k with
  | K_hist_t => hist_t s
  | K_hist_co2_z1 => hist_co2_z1 s
  | K_hist_nh3_z1 => hist_nh3_z1 s
  | K_hist_co2_z2 => hist_co2_z2 s
  | K_hist_nh3_z2 => hist_nh3_z2 s
  | K_hist_flow_z1 => hist_flow_z1 s
  | _ => []
  end.

(** The dictionary [_def], in the order of its items.  The script builds
    it anew on every run, so its lists are the one-sample lists written
    here whenever a handler reads them. *)
Definition _def : list (key * value) :=
  [ (K_sim_active, VBool false); (K_sim_step, VInt 0); (K_mast_day, VFloat 1.0);
    (K_flow_z1, VFloat 30.0); (K_flow_z2, VFloat 25.0);
    (K_hist_t, VList [0.0]); (K_hist_co2_z1, VList [420.0]);
    (K_hist_nh3_z1, VList [0.2]); (K_hist_co2_z2, VList [420.0]);
    (K_hist_nh3_z2, VList [0.2]); (K_hist_flow_z1, VList [30.0]) ].

(** [for k, v in items: st.session_state[k] = v]. *)
Definition assign_all (items : list (key * value)) (s : SessionState)
  : SessionState :=
  fold_left (fun s kv => set_key (fst kv) (snd kv) s) items s.

(** The RESET handler (lines 1302-1304), up to the rerun it requests. *)
Definition reset (s : SessionState) : SessionState := assign_all _def s.

(** The START handler (lines 1293-1299). *)
Definition start (s : SessionState) : SessionState :=
  assign_all
    [ (K_sim_active, VBool true); (K_sim_step, VInt 0); (K_mast_day, VFloat 1.0);
      (K_flow_z1, VFloat 30.0); (K_flow_z2, VFloat 25.0);
      (K_hist_t, VList [0.0]); (K_hist_co2_z1, VList [420.0]);
      (K_hist_nh3_z1, VList [0.2]); (K_hist_co2_z2, VList [420.0]);
      (K_hist_nh3_z2, VList [0.2]); (K_hist_flow_z1, VList [30.0]) ] s.

(** The STOP handler (lines 1300-1301). *)
Definition stop (s : SessionState) : SessionState :=
  set_key K_sim_active (VBool false) s.

(** The state of a session whose first run has just filled in [_def];
    the rate keys are those the sidebar stores from its inputs. *)
Definition initial_session (co2_r nh3_r : R) : SessionState :=
  assign_all _def
    (mkSession false 0 0 0 0 [] [] [] [] [] [] (Some co2_r) (Some nh3_r)).

(** The history loop shared by the two branches of the simulation block. *)
Definition append_samples (samples : list (key * R)) (s : SessionState)
  : SessionState :=
  fold_left
    (fun s kv => set_key (fst kv) (VList (hist_append (get_hist (fst kv) s) (snd kv))) s)
    samples s.

(** ** The simulation block (lines 1320-1322 and 1399-1442) *)

(** Values the sidebar widgets hand to the block. *)
Record Inputs : Type := mkInputs {
  in_mast_day : R;       (* slider "Masttag" *)
  mass_z1 : R;           (* slider, tonnes *)
  mass_z2 : R;           (* slider, tonnes *)
  flow_z1_manual : R;    (* percent *)
  flow_z2_manual : R     (* percent *)
}.

(** Local variables the block leaves behind for the displays. *)
Record Readings : Type := mkReadings {
  r_mast_day : R;
  r_flow_z1 : R;
  r_flow_z2 : R;
  r_co2_z1 : R;
  r_nh3_z1 : R;
  r_co2_z2 : R;
  r_nh3_z2 : R
}.

(** Lines 1321-1322: the rate globals are re-read from the session. *)
Definition session_globals (g : Globals) (s : SessionState) : Globals :=
  mkGlobals (CO2_S1 g) (CO2_S2 g) (CO2_S3 g) (NH3_S1 g) (NH3_S2 g) (NH3_S3 g)
    (match co2_rate_avg s with Some r => r | None => 0.125 end)
    (match nh3_rate_base s with Some r => r | None => 0.001 end).

(** The autopilot branch ([sim_active] set): one tick. *)
Definition autopilot_tick (g0 : Globals) (inp : Inputs) (s : SessionState)
  : pyres (SessionState * Readings) :=
  let g := session_globals g0 s in
  let s := set_key K_sim_step (VInt (sim_step s + 1)) s in
  let step := sim_step s in
  let s := set_key K_mast_day
             (VFloat (Rmin 8.0 (1.0 + IZR step * (7.0 / 120.0)))) s in
  let mast_day := mast_day s in
  c <- macro_co2 g (mass_z1 inp * 1000) 0 VOL_Z1 mast_day None ;;
  n <- macro_nh3 g (mass_z1 inp * 1000) 0 VOL_Z1 mast_day None ;;
  let flow_z1 := autopilot_flow g c n mast_day 28.0 in
  c <- macro_co2 g (mass_z2 inp * 1000) 0 VOL_Z2 mast_day None ;;
  n <- macro_nh3 g (mass_z2 inp * 1000) 0 VOL_Z2 mast_day None ;;
  let flow_z2 := autopilot_flow g c n mast_day 22.0 in
  let s := set_key K_flow_z1 (VFloat flow_z1) s in
  let s := set_key K_flow_z2 (VFloat flow_z2) s in
  co2_z1 <- macro_co2 g (mass_z1 inp * 1000) flow_z1 VOL_Z1 mast_day None ;;
  nh3_z1 <- macro_nh3 g (mass_z1 inp * 1000) flow_z1 VOL_Z1 mast_day None ;;
  co2_z2 <- macro_co2 g (mass_z2 inp * 1000) flow_z2 VOL_Z2 mast_day None ;;
  nh3_z2 <- macro_nh3 g (mass_z2 inp * 1000) flow_z2 VOL_Z2 mast_day None ;;
  let t_val := (IZR step * 0.25) / 60.0 in
  let s := append_samples
             [ (K_hist_t, t_val); (K_hist_co2_z1, co2_z1);
               (K_hist_nh3_z1, nh3_z1); (K_hist_co2_z2, co2_z2);
               (K_hist_nh3_z2, nh3_z2); (K_hist_flow_z1, flow_z1) ] s in
  Ok (s, mkReadings mast_day flow_z1 flow_z2 co2_z1 nh3_z1 co2_z2 nh3_z2).

(** The manual branch ([sim_active] clear). *)
Definition manual_sample (g0 : Globals) (inp : Inputs) (s : SessionState)
  : pyres (SessionState * Readings) :=
  let g := session_globals g0 s in
  let mast_day := in_mast_day inp in
  let flow_z1 := flow_z1_manual inp in
  let flow_z2 := flow_z2_manual inp in
  co2_z1 <- macro_co2 g (mass_z1 inp * 1000) flow_z1 VOL_Z1 mast_day None ;;
  nh3_z1 <- macro_nh3 g (mass_z1 inp * 1000) flow_z1 VOL_Z1 mast_day None ;;
  co2_z2 <- macro_co2 g (mass_z2 inp * 1000) flow_z2 VOL_Z2 mast_day None ;;
  nh3_z2 <- macro_nh3 g (mass_z2 inp * 1000) flow_z2 VOL_Z2 mast_day None ;;
  let t_val := INR (length (hist_t s)) * 0.25 / 60.0 in
  let s := append_samples
             [ (K_hist_t, t_val); (K_hist_co2_z1, co2_z1);
               (K_hist_nh3_z1, nh3_z1); (K_hist_co2_z2, co2_z2);
               (K_hist_nh3_z2, nh3_z2); (K_hist_flow_z1, flow_z1) ] s in
  Ok (s, mkReadings mast_day flow_z1 flow_z2 co2_z1 nh3_z1 co2_z2 nh3_z2).

(** [if st.session_state.sim_active: ... else: ...]. *)
Definition simulation (g0 : Globals) (inp : Inputs) (s : SessionState)
  : pyres (SessionState * Readings) :=
  if sim_active s then autopilot_tick g0 inp s else manual_sample g0 inp s.

(** ** The tick as section 4.5 of the specification words it *)

(** Follows the specification's wording, for comparison with
    [autopilot_tick]: the day advances by the increment [7/120] and is
    clamped at 8.0, the four concentrations come from the mass balance at
    the airflow of the previous tick, and the next airflow is staged from
    those concentrations before the sample is appended. *)
Definition spec_tick (g0 : Globals) (inp : Inputs) (s : SessionState)
  : pyres (SessionState * Readings) :=
  let g := session_globals g0 s in
  let day := Rmin 8.0 (mast_day s + 7.0 / 120.0) in
  let step := (sim_step s + 1)%Z in
  co2_z1 <- macro_co2 g (mass_z1 inp * 1000) (flow_z1 s) VOL_Z1 day None ;;
  nh3_z1 <- macro_nh3 g (mass_z1 inp * 1000) (flow_z1 s) VOL_Z1 day None ;;
  co2_z2 <- macro_co2 g (mass_z2 inp * 1000) (flow_z2 s) VOL_Z2 day None ;;
  nh3_z2 <- macro_nh3 g (mass_z2 inp * 1000) (flow_z2 s) VOL_Z2 day None ;;
  let next_z1 := autopilot_flow g co2_z1 nh3_z1 day 28.0 in
  let next_z2 := autopilot_flow g co2_z2 nh3_z2 day 22.0 in
  let s := assign_all
             [ (K_sim_step, VInt step); (K_mast_day, VFloat day);
               (K_flow_z1, VFloat next_z1); (K_flow_z2, VFloat next_z2) ] s in
  let t_val := (IZR step * 0.25) / 60.0 in
  let s := append_samples
             [ (K_hist_t, t_val); (K_hist_co2_z1, co2_z1);
               (K_hist_nh3_z1, nh3_z1); (K_hist_co2_z2, co2_z2);
               (K_hist_nh3_z2, nh3_z2); (K_hist_flow_z1, next_z1) ] s in
  Ok (s, mkReadings day next_z1 next_z2 co2_z1 nh3_z1 co2_z2 nh3_z2).

(** The relation between step counter and day that START establishes
    and every tick keeps. *)
Definition day_follows_step (s : SessionState) : Prop :=
  (0 <= sim_step s)%Z /\
  mast_day s = Rmin 8.0 (1.0 + IZR (sim_step s) * (7.0 / 120.0)).

(** ** A session to run on *)

(** The session right after START, with the rates of the sidebar's
    defaults, and the widget values of an untouched sidebar: 51.858 t and
    7.56 t of substrate, both manual flows at the ECO stage. *)
Definition started_session : SessionState := start (initial_session 0.125 0.001).

Definition default_inputs : Inputs := mkInputs 1.0 51.858 7.56 20 20.

(** ** Vocabulary of the statements *)

(** Order on outcomes: both sides are values, and they compare. *)
Definition ppm_le (a b : pyres R) : Prop :=
  match a, b with
  | Ok x, Ok y => x <= y
  | _, _ => False
  end.

Definition ppm_lt (a b : pyres R) : Prop :=
  match a, b with
  | Ok x, Ok y => x < y
  | _, _ => False
  end.

(** Components of the tuples of [fan_stage] and [get_stufe]. *)
Definition stage_nr {A B C : Type} (t : Z * A * B * C) : Z := fst (fst (fst t)).
Definition stage_pct {A B : Type} (t : Z * A * B * Z) : Z := snd t.

(** Thresholds by stage number, as [stufen_co2[k]] and [stufen_nh3[k]]
    feed the globals (lines 1232-1233). *)
Definition co2_threshold (g : Globals) (k : Z) : Z :=
  match k with
  | 1%Z => CO2_S1 g
  | 2%Z => CO2_S2 g
  | _ => CO2_S3 g
  end.

Definition nh3_threshold (g : Globals) (k : Z) : Z :=
  match k with
  | 1%Z => NH3_S1 g
  | 2%Z => NH3_S2 g
  | _ => NH3_S3 g
  end.

(** A threshold table that does not decrease with the stage. *)
Definition table_ordered (g : Globals) : Prop :=
  (CO2_S1 g <= CO2_S2 g <= CO2_S3 g)%Z /\ (NH3_S1 g <= NH3_S2 g <= NH3_S3 g)%Z.

(** ** Air changes and micro climate (lines 738-740 and 1154-1159) *)

(** [a >= b] as a Python boolean. *)
Definition geb (a b : R) : bool := if Rge_dec a b then true else false.

(** [round(x, 2)]. *)
Definition round2 (x : R) : R := IZR (Num.rint (x * 100)) / 100.

(** [ach_val(pct, vol, max_q=None)]: air changes per hour. *)
Definition ach_val (pct vol : R) (max_q : option R) : pyres R :=
  q <- Num.div (fan_m3h pct vol max_q) vol ;;
  Ok (round2 q).

(** [ach(flow_pct, vol)]. *)
Definition ach (flow_pct vol : R) : pyres R := ach_val flow_pct vol None.

(** [micro_factor(day)]. *)
Definition micro_factor (day : R) : R :=
  1.4 + 1.0 * ((day - 1) / IZR (CO2_DAYS - 1)).

(** ** Displays of the readings (lines 1539-1575, 392-393, 871-881) *)

Section Displays.

Variable g : Globals.

(** The CSS classes of the macro-climate KPI tiles of zone 01
    (lines 1539-1540). *)
Definition co2c (co2_z1 : R) : string :=
  if Num.gtb co2_z1 (IZR (CO2_S3 g)) then "red"
  else if Num.gtb co2_z1 (IZR (CO2_S2 g)) then "ora"
  else if Num.ltb co2_z1 (IZR (CO2_S1 g)) then "grn"
  else "".

Definition nh3c (nh3_z1 : R) : string :=
  if Num.gtb nh3_z1 (IZR (NH3_S3 g)) then "red"
  else if Num.gtb nh3_z1 (IZR (NH3_S2 g)) then "ora"
  else if Num.ltb nh3_z1 (IZR (NH3_S1 g)) then "grn"
  else "".

(** The classes of the micro-climate tiles (lines 1555-1556); the tiles
    of zone 02 (lines 1574-1575) use the same two expressions. *)
Definition co2mc (co2_micro : R) : string :=
  if Num.gtb co2_micro (IZR (CO2_S3 g)) then "red"
  else if Num.gtb co2_micro (IZR (CO2_S2 g)) then "ora"
  else "".

Definition nh3mc (nh3_micro : R) : string :=
  if Num.gtb nh3_micro (IZR (NH3_S3 g)) then "red"
  else if Num.gtb nh3_micro (IZR (NH3_S2 g)) then "ora"
  else "".

(** [co2_warn(v)] and [nh3_warn(v)] of [make_pdf_report]; the entries
    [co2_s1] to [nh3_s3] of its parameters are the globals
    (lines 1374-1375). *)
Definition co2_warn (v : R) : string :=
  if Num.gtb v (IZR (CO2_S3 g)) then "red"
  else if Num.gtb v (IZR (CO2_S2 g)) then "orange"
  else if Num.gtb v (IZR (CO2_S1 g)) then "yellow"
  else "green".

Definition nh3_warn (v : R) : string :=
  if Num.gtb v (IZR (NH3_S3 g)) then "red"
  else if Num.gtb v (IZR (NH3_S2 g)) then "orange"
  else if Num.gtb v (IZR (NH3_S1 g)) then "yellow"
  else "green".

(** [_nh3_rate(day, b=None)] of [make_pdf_report]; [b or p['nh3_rate']]
    takes the parameter when [b] is [None] or zero. *)
Definition _nh3_rate (day : R) (b : option R) : R :=
  let ba :=
    match b with
    | Some b => if Req_dec_T b 0 then NH3_RATE_BASE g else b
    | None => NH3_RATE_BASE g
    end in
  let x := day / 8.0 in
  if Num.ltb x 0.45 then ba * (1.0 + 0.5 * x / 0.45)
  else ba * 1.5 * exp (2.6 * (x - 0.45)).

End Displays.

(** [status_txt(val, s1, s2, s3)] of [generate_pdf_report]. *)
Definition status_txt (val : R) (s1 s2 s3 : Z) : string :=
  if geb val (IZR s3) then "ALARM"
  else if geb val (IZR s2) then "STUFE 2"
  else if geb val (IZR s1) then "STUFE 1"
  else "ECO / OK".

(** [_ppm(day)] of [gas_chart_rl], with the variables it closes over. *)
Definition _ppm (mass_kg flow_pct vol : R) (rate_fn : R -> R) (rho ambient : R)
  (day : R) : pyres R :=
  let E_kg_h := mass_kg * rate_fn day / 1000.0 in
  E_m3_h <- Num.div E_kg_h rho ;;
  let Q := Rmax (flow_pct / 100.0 * vol * 6.0) 1.0 in
  q <- Num.div E_m3_h Q ;;
  Ok (ambient + q * 1e6).

(** [hist or alt] on lists (lines 1595-1600): the alternative stands in
    for an empty series. *)
Definition or_list (hist alt : list R) : list R :=
  match hist with
  | [] => alt
  | _ => hist
  end.

(** ** The autopilot loop (lines 2210-2212) *)

(** While the session is active the script sleeps and runs again, and
    every run goes through the simulation block; [n] runs with the
    widgets left alone. *)
Fixpoint autopilot_loop (g0 : Globals) (inp : Inputs) (n : nat) (s : SessionState)
  : pyres SessionState :=
  match n with
  | O => Ok s
  | S n =>
      r <- simulation g0 inp s ;;
      autopilot_loop g0 inp n (fst r)
  end.

(** ** Colours of the report (lines 37-39) *)

(** Python strings are taken with characters up to U+00FF, one per
    character of a Rocq string. *)

(** [h.lstrip('#')]. *)
Fixpoint lstrip_hash (h : string) : string :=
  match h with
  | String c rest => if Ascii.eqb c "#"%char then lstrip_hash rest else h
  | EmptyString => EmptyString
  end.

(** Value of a hexadecimal digit. *)
Definition hex_val (c : ascii) : option Z :=
  let n := Z.of_N (N_of_ascii c) in
  if (48 <=? n)%Z && (n <=? 57)%Z then Some (n - 48)%Z
  else if (97 <=? n)%Z && (n <=? 102)%Z then Some (n - 87)%Z
  else if (65 <=? n)%Z && (n <=? 70)%Z then Some (n - 55)%Z
  else None.

(** White space that [int] strips: tab to carriage return, space,
    U+0085 and U+00A0. *)
Definition is_space (c : ascii) : bool :=
  let n := Z.of_N (N_of_ascii c) in
  ((9 <=? n)%Z && (n <=? 13)%Z) || (n =? 32)%Z || (n =? 133)%Z || (n =? 160)%Z.

(** [int(s, 16)] on the slices [h[i:i+2]], which hold at most two
    characters: two digits, one digit, a digit after a sign, or a digit
    beside white space; everything else is a ValueError ([None]). *)
Definition int16 (s : string) : option Z :=
  match s with
  | EmptyString => None
  | String a EmptyString => hex_val a
  | String a (String b EmptyString) =>
      match hex_val a, hex_val b with
      | Some x, Some y => Some (16 * x + y)%Z
      | Some x, None => if is_space b then Some x else None
      | None, Some y =>
          if is_space a then Some y
          else if Ascii.eqb a "+"%char then Some y
          else if Ascii.eqb a "-"%char then Some (- y)%Z
          else None
      | None, None => None
      end
  | String _ (String _ (String _ _)) => None
  end.

(** [hex2rgb(h)]. *)
Definition hex2rgb (h : string) : option (R * R * R) :=
  let h := lstrip_hash h in
  match int16 (substring 0 2 h) with
  | None => None
  | Some r =>
      match int16 (substring 2 2 h) with
      | None => None
      | Some g =>
          match int16 (substring 4 2 h) with
          | None => None
          | Some b => Some (IZR r / 255.0, IZR g / 255.0, IZR b / 255.0)
          end
      end
  end.

(** ** The fan staircase of chart 1 (lines 1687-1692) *)

(** The body of the loop, for one value of the CO2 curve; the lists are
    the sidebar's [stufen_co2] and [stufen_pct], and an index out of
    range is an IndexError ([None]). *)
Definition fan_step (stufen_co2 stufen_pct : list Z) (co2_val : R) : option Z :=
  match nth_error stufen_co2 3 with
  | None => None
  | Some t3 =>
      if geb co2_val (IZR t3) then nth_error stufen_pct 3
      else
        match nth_error stufen_co2 2 with
        | None => None
        | Some t2 =>
            if geb co2_val (IZR t2) then nth_error stufen_pct 2
            else
              match nth_error stufen_co2 1 with
              | None => None
              | Some t1 =>
                  if geb co2_val (IZR t1) then nth_error stufen_pct 1
                  else nth_error stufen_pct 0
              end
        end
  end.

(** [fan_step_arr], the loop over the curve [c1_arr]. *)
Fixpoint fan_step_arr (stufen_co2 stufen_pct : list Z) (c1_arr : list R)
  : option (list Z) :=
  match c1_arr with
  | [] => Some []
  | co2_val :: rest =>
      match fan_step stufen_co2 stufen_pct co2_val with
      | None => None
      | Some p =>
          match fan_step_arr stufen_co2 stufen_pct rest with
          | None => None
          | Some ps => Some (p :: ps)
          end
      end
  end.

(** ** More vocabulary *)

(** A run of [n] characters '#'. *)
Fixpoint hashes (n : nat) : string :=
  match n with
  | O => EmptyString
  | S n => String "#" (hashes n)
  end.


(** The six series have one length, between 1 and 200. *)
Definition series_aligned (s : SessionState) : Prop :=
  (1 <= length (hist_t s) <= 200)%nat /\
  length (hist_co2_z1 s) = length (hist_t s) /\
  length (hist_nh3_z1 s) = length (hist_t s) /\
  length (hist_co2_z2 s) = length (hist_t s) /\
  length (hist_nh3_z2 s) = length (hist_t s) /\
  length (hist_flow_z1 s) = length (hist_t s).

(** Severity of a warning colour of the report. *)
Definition warn_level (c : string) : Z :=
  if String.eqb c "red" then 3
  else if String.eqb c "orange" then 2
  else if String.eqb c "yellow" then 1
  else 0.

(** Severity of a status text of the report. *)
Definition status_level (t : string) : Z :=
  if String.eqb t "ALARM" then 3
  else if String.eqb t "STUFE 2" then 2
  else if String.eqb t "STUFE 1" then 1
  else 0.

(** The ranges of the sidebar widgets the properties rely on: zone 01
    holds 5 to 60 t, the NH3 thresholds go up to 200 ppm, the NH3 base
    rate is at least 0.0001 g/kg/h (lines 1202, 1227, 1275). *)
Definition widgets_in_range (g0 : Globals) (inp : Inputs) (s : SessionState) : Prop :=
  5 <= mass_z1 inp <= 60 /\
  (NH3_S3 g0 <= 200)%Z /\
  0.0001 <= NH3_RATE_BASE (session_globals g0 s).

(** * Properties *)

(** ** Numeric primitives *)

Module NumFacts.

Lemma div_ok (a b : R) : b <> 0 -> Num.div a b = Ok (a / b).
Proof.
  intros Hb. unfold Num.div. destruct (Req_dec_T b 0); [contradiction | reflexivity].
Qed.

Lemma div_zero (a : R) : Num.div a 0 = Err ZeroDivisionError.
Proof.
  unfold Num.div. destruct (Req_dec_T 0 0) as [_ | H]; [reflexivity | now elim H].
Qed.

Lemma gtb_true_iff (a b : R) : Num.gtb a b = true <-> a > b.
Proof.
  unfold Num.gtb. destruct (Rgt_dec a b); split; intros; auto; discriminate.
Qed.

Lemma gtb_false_iff (a b : R) : Num.gtb a b = false <-> a <= b.
Proof.
  unfold Num.gtb. destruct (Rgt_dec a b); split; intros; auto; try discriminate; lra.
Qed.

Lemma ltb_true_iff (a b : R) : Num.ltb a b = true <-> a < b.
Proof.
  unfold Num.ltb. destruct (Rlt_dec a b); split; intros; auto; discriminate.
Qed.

Lemma ltb_false_iff (a b : R) : Num.ltb a b = false <-> b <= a.
Proof.
  unfold Num.ltb. destruct (Rlt_dec a b); split; intros; auto; try discriminate; lra.
Qed.

(** The integer part and the fractional part add up. *)
Lemma int_frac (x : R) :
  x = IZR (Int_part x) + frac_part x /\ 0 <= frac_part x < 1.
Proof.
  unfold frac_part. destruct (base_fp x) as [H0 H1]. unfold frac_part in *.
  split; lra.
Qed.

(** [rint] is within a half of its argument. *)
Lemma rint_near (x : R) :
  IZR (Num.rint x) - 1 / 2 <= x <= IZR (Num.rint x) + 1 / 2.
Proof.
  destruct (int_frac x) as [Hx [Hf0 Hf1]]. unfold Num.rint.
  destruct (Rlt_dec (frac_part x) (1 / 2)) as [Hlt | Hge].
  - lra.
  - destruct (Rlt_dec (1 / 2) (frac_part x)) as [Hgt | Hle].
    + rewrite plus_IZR. lra.
    + destruct (Z.even (Int_part x)); [| rewrite plus_IZR]; lra.
Qed.

(** An integer is its own rounding. *)
Lemma rint_IZR (z : Z) : Num.rint (IZR z) = z.
Proof.
  assert (Hi : Int_part (IZR z) = z).
  { destruct (base_Int_part (IZR z)) as [H1 H2].
    assert (Hle : (Int_part (IZR z) <= z)%Z) by (apply le_IZR; lra).
    assert (Hlt : (z < Int_part (IZR z) + 1)%Z).
    { apply lt_IZR. rewrite plus_IZR. lra. }
    lia. }
  unfold Num.rint, frac_part. rewrite Hi.
  destruct (Rlt_dec (IZR z - IZR z) (1 / 2)) as [_ | H]; [reflexivity | lra].
Qed.

(** Rounding to the nearest integer is monotone. *)
Lemma rint_mono (x y : R) : x <= y -> (Num.rint x <= Num.rint y)%Z.
Proof.
  intros Hxy.
  destruct (Z_le_gt_dec (Num.rint x) (Num.rint y)) as [H | H]; [exact H | exfalso].
  assert (Hz : (Num.rint y + 1 <= Num.rint x)%Z) by lia.
  apply IZR_le in Hz. rewrite plus_IZR in Hz.
  pose proof (rint_near x) as Hx. pose proof (rint_near y) as Hy.
  assert (Heq : x = y) by lra.
  subst y. lia.
Qed.

Lemma round1_near (x : R) : Num.round1 x - 1 / 20 <= x <= Num.round1 x + 1 / 20.
Proof.
  unfold Num.round1. pose proof (rint_near (x * 10)). lra.
Qed.

Lemma round1_mono (x y : R) : x <= y -> Num.round1 x <= Num.round1 y.
Proof.
  intros Hxy. unfold Num.round1.
  assert (H : (Num.rint (x * 10) <= Num.rint (y * 10))%Z) by (apply rint_mono; lra).
  apply IZR_le in H. lra.
Qed.

(** A multiple of one tenth is its own rounding. *)
Lemma round1_tenth (k : Z) : Num.round1 (IZR k / 10) = IZR k / 10.
Proof.
  unfold Num.round1. replace (IZR k / 10 * 10) with (IZR k) by lra.
  now rewrite rint_IZR.
Qed.

(** What is nearer to zero than to a tenth rounds to zero. *)
Lemma round1_small (x : R) : - (1 / 20) < x < 1 / 20 -> Num.round1 x = 0.
Proof.
  intros Hx. unfold Num.round1. pose proof (rint_near (x * 10)) as Hn.
  assert (Hz : Num.rint (x * 10) = 0%Z).
  { assert (H1 : (-1 < Num.rint (x * 10))%Z) by (apply lt_IZR; lra).
    assert (H2 : (Num.rint (x * 10) < 1)%Z) by (apply lt_IZR; lra).
    lia. }
  rewrite Hz. lra.
Qed.

Lemma pow_1_8_pos (b : R) : 0 < b -> Num.pow_1_8 b = Ok (Rpower b 1.8).
Proof.
  intros Hb. unfold Num.pow_1_8. destruct (Rlt_dec 0 b); [reflexivity | contradiction].
Qed.

Lemma pow_1_8_zero : Num.pow_1_8 0 = Ok 0.
Proof.
  unfold Num.pow_1_8. destruct (Rlt_dec 0 0) as [H | _]; [lra |].
  destruct (Req_dec_T 0 0) as [_ | H]; [reflexivity | now elim H].
Qed.

(** On a base that is not negative the power is defined, and lies
    between 0 and 1 when the base is at most 1. *)
Lemma pow_1_8_unit (b : R) :
  0 <= b <= 1 -> exists p, Num.pow_1_8 b = Ok p /\ 0 <= p <= 1.
Proof.
  intros [H0 H1]. destruct (Rle_lt_or_eq_dec 0 b H0) as [Hpos | Hz].
  - exists (Rpower b 1.8). split; [now apply pow_1_8_pos |].
    unfold Rpower. split; [left; apply exp_pos |].
    rewrite <- exp_0. destruct (Rle_lt_or_eq_dec b 1 H1) as [Hlt | He].
    + left. apply exp_increasing.
      assert (Hln : ln b < 0) by (rewrite <- ln_1; apply ln_increasing; lra).
      nra.
    + subst b. rewrite ln_1. right. f_equal. lra.
  - subst b. exists 0. split; [apply pow_1_8_zero | lra].
Qed.

End NumFacts.

(** ** Mass balance *)

Lemma fan_m3h_floor (pct vol : R) (max_q : option R) : 1 <= fan_m3h pct vol max_q.
Proof.
  unfold fan_m3h. eapply Rle_trans; [| apply Rmax_r]. lra.
Qed.

Lemma fan_m3h_mono (p1 p2 vol : R) :
  0 <= vol -> p1 <= p2 -> fan_m3h p1 vol None <= fan_m3h p2 vol None.
Proof.
  intros Hv Hp. unfold fan_m3h. apply Rle_max_compat_r. nra.
Qed.

(** Airflow of zone 01 at 100 % and at 30 %. *)
Lemma fan_m3h_z1_100 : fan_m3h 100.0 VOL_Z1 None = 4748.1057.
Proof.
  unfold fan_m3h, VOL_Z1, Z1_L, Z1_B, Z1_H. rewrite Rmax_left; lra.
Qed.

Lemma fan_m3h_z1_30 : fan_m3h 30.0 VOL_Z1 None = 1424.43171.
Proof.
  unfold fan_m3h, VOL_Z1, Z1_L, Z1_B, Z1_H. rewrite Rmax_left; lra.
Qed.

Lemma fan_m3h_zero (vol : R) : fan_m3h 0 vol None = 1.
Proof.
  unfold fan_m3h. rewrite Rmax_right; lra.
Qed.

(** With a density that is not zero, [calc_ppm] returns the rounded
    balance. *)
Lemma calc_ppm_ok (mass rate rho pct vol amb : R) :
  rho <> 0 ->
  calc_ppm mass rate rho pct vol amb =
  Ok (Num.round1 (amb + mass * rate / 1000 / rho / fan_m3h pct vol None * 1e6)).
Proof.
  intros Hrho. unfold calc_ppm.
  rewrite (NumFacts.div_ok _ rho Hrho). cbn [bind].
  rewrite NumFacts.div_ok by (pose proof (fan_m3h_floor pct vol None); lra).
  cbn [bind]. do 3 f_equal. lra.
Qed.

(** A quotient by the airflow shrinks when the airflow grows. *)
Lemma dilution_antitone (e q1 q2 : R) :
  0 <= e -> 1 <= q1 -> q1 <= q2 -> e / q2 <= e / q1.
Proof.
  intros He Hq1 Hq. unfold Rdiv. apply Rmult_le_compat_l; [exact He |].
  apply Rinv_le_contravar; lra.
Qed.

Lemma dilution_monotone (e1 e2 q : R) :
  1 <= q -> e1 <= e2 -> e1 / q <= e2 / q.
Proof.
  intros Hq He. unfold Rdiv. apply Rmult_le_compat_r; [| exact He].
  left. apply Rinv_0_lt_compat. lra.
Qed.

(** C7: the airflow used by the mass balance is at least 1.0 m3/h for
    every airflow percentage and zone volume, so the division by it never
    fails, and [calc_ppm] returns a value whenever the gas density is
    positive. *)
Theorem airflow_floor_makes_calc_ppm_total
  (mass rate rho pct vol amb : R) :
  0 < vol -> 0 < rho ->
  1.0 <= fan_m3h pct vol None /\
  (forall e, Num.div e (fan_m3h pct vol None) = Ok (e / fan_m3h pct vol None)) /\
  exists c, calc_ppm mass rate rho pct vol amb = Ok c.
Proof.
  intros _ Hrho. pose proof (fan_m3h_floor pct vol None) as Hq.
  split; [lra |]. split.
  - intros e. apply NumFacts.div_ok. lra.
  - eexists. apply calc_ppm_ok. lra.
Qed.

Lemma airflow_floor_makes_calc_ppm_total_witness :
  1.0 <= fan_m3h 0 VOL_Z1 None /\
  (forall e, Num.div e (fan_m3h 0 VOL_Z1 None) = Ok (e / fan_m3h 0 VOL_Z1 None)) /\
  exists c, calc_ppm 51858 0.125 RHO_CO2 0 VOL_Z1 CO2_AMBIENT = Ok c.
Proof.
  apply (airflow_floor_makes_calc_ppm_total 51858 0.125 RHO_CO2 0 VOL_Z1 CO2_AMBIENT).
  - unfold VOL_Z1, Z1_L, Z1_B, Z1_H. lra.
  - unfold RHO_CO2. lra.
Defined.

(** Rounding is the only way below the ambient argument: the result
    is at least the ambient argument rounded to one decimal, hence within
    0.05 of the argument from below. *)
Lemma calc_ppm_at_least_rounded_ambient
  (mass rate rho pct vol amb : R) :
  0 <= mass -> 0 <= rate -> 0 < rho ->
  exists c,
    calc_ppm mass rate rho pct vol amb = Ok c /\
    Num.round1 amb <= c /\
    amb - 1 / 20 <= c.
Proof.
  intros Hm Hr Hrho. eexists. split; [apply calc_ppm_ok; lra |].
  assert (Hmono : Num.round1 amb <=
                  Num.round1 (amb + mass * rate / 1000 / rho
                                    / fan_m3h pct vol None * 1e6)).
  { apply NumFacts.round1_mono.
    pose proof (fan_m3h_floor pct vol None) as Hq.
    assert (He : 0 <= mass * rate / 1000 / rho).
    { apply Rmult_le_pos; [| left; apply Rinv_0_lt_compat; lra]. nra. }
    assert (H : 0 <= mass * rate / 1000 / rho / fan_m3h pct vol None).
    { apply Rmult_le_pos; [exact He | left; apply Rinv_0_lt_compat; lra]. }
    lra. }
  split; [exact Hmono |].
  pose proof (NumFacts.round1_near amb). lra.
Qed.

(** C10, as the code has it: with mass and rate not negative, a positive
    density and a positive volume, [calc_ppm] returns a value that is at
    least the ambient argument rounded to one decimal, so never more than
    0.05 below the argument, and at least the argument itself whenever
    that is a multiple of 0.1.  The ambient value of [macro_co2], 420.0,
    is such a multiple and bounds the CO2 reading from below; that of
    [macro_nh3], 0.02, is not, and there the reading is only known to be
    at least 0.0. *)
Theorem calc_ppm_at_least_ambient
  (mass rate rho pct vol amb : R) :
  0 <= mass -> 0 <= rate -> 0 < rho -> 0 < vol ->
  exists c,
    calc_ppm mass rate rho pct vol amb = Ok c /\
    Num.round1 amb <= c /\
    amb - 1 / 20 <= c /\
    (forall k : Z, amb = IZR k / 10 -> amb <= c) /\
    (amb = CO2_AMBIENT -> CO2_AMBIENT <= c) /\
    (amb = 0.02 -> 0 <= c).
Proof.
  intros Hm Hr Hrho _.
  destruct (calc_ppm_at_least_rounded_ambient mass rate rho pct vol amb
              Hm Hr Hrho) as (c & Hc & Hround & Hnear).
  exists c. split; [exact Hc |]. split; [exact Hround |].
  split; [exact Hnear |]. split; [| split].
  - intros k Hk. rewrite Hk in Hround |- *.
    now rewrite NumFacts.round1_tenth in Hround.
  - intros Hamb. rewrite Hamb in Hround.
    replace CO2_AMBIENT with (IZR 4200 / 10) in Hround |- *
      by (unfold CO2_AMBIENT; lra).
    now rewrite NumFacts.round1_tenth in Hround.
  - intros Hamb. rewrite Hamb in Hround.
    rewrite (NumFacts.round1_small 0.02) in Hround by lra. exact Hround.
Qed.

Lemma calc_ppm_at_least_ambient_witness :
  exists c,
    calc_ppm 51858 0.125 RHO_CO2 20 VOL_Z1 CO2_AMBIENT = Ok c /\
    Num.round1 CO2_AMBIENT <= c /\
    CO2_AMBIENT - 1 / 20 <= c /\
    (forall k : Z, CO2_AMBIENT = IZR k / 10 -> CO2_AMBIENT <= c) /\
    (CO2_AMBIENT = CO2_AMBIENT -> CO2_AMBIENT <= c) /\
    (CO2_AMBIENT = 0.02 -> 0 <= c).
Proof.
  apply (calc_ppm_at_least_ambient 51858 0.125 RHO_CO2 20 VOL_Z1 CO2_AMBIENT).
  - lra.
  - lra.
  - unfold RHO_CO2. lra.
  - unfold VOL_Z1, Z1_L, Z1_B, Z1_H. lra.
Defined.

(** C10 as stated fails at the NH3 call site.  The ambient value of
    [macro_co2], 420.0, is a multiple of 0.1, but that of [macro_nh3],
    0.02, is not: it rounds to 0.0, and with 0 kg or 1 kg of substrate at
    full airflow in zone 01 on day 1 (rate not negative, density and
    volume positive) the NH3 reading is 0.0, below the ambient value
    0.02. *)
Lemma nh3_reading_below_ambient :
  CO2_AMBIENT = IZR 4200 / 10 /\
  (forall k : Z, IZR k / 10 <> 0.02) /\
  (macro_nh3 default_globals 0 100.0 VOL_Z1 1 None =
   calc_ppm 0 (nh3_rate_g_kg_h default_globals 1 None) RHO_NH3 100.0 VOL_Z1 0.02) /\
  (macro_nh3 default_globals 0 100.0 VOL_Z1 1 None = Ok 0) /\
  (macro_nh3 default_globals 1 100.0 VOL_Z1 1 None = Ok 0) /\
  0 < 0.02 /\
  (macro_nh3 default_globals 1 100.0 VOL_Z1 1 None =
   calc_ppm 1 (nh3_rate_g_kg_h default_globals 1 None) RHO_NH3 100.0 VOL_Z1 0.02) /\
  0 <= nh3_rate_g_kg_h default_globals 1 None /\
  0 < RHO_NH3 /\
  0 < VOL_Z1.
Proof.
  assert (Hrate : nh3_rate_g_kg_h default_globals 1
                    (Some (NH3_RATE_BASE default_globals))
                  = 0.001 * (1.0 + 0.5 * (1 / 8) / 0.45)).
  { unfold nh3_rate_g_kg_h. cbn [default_globals NH3_RATE_BASE].
    change (IZR CO2_DAYS) with 8.
    destruct (Num.ltb (1 / 8) 0.45) eqn:E; [reflexivity |].
    apply NumFacts.ltb_false_iff in E. lra. }
  split; [unfold CO2_AMBIENT; lra |].
  split; [| split; [reflexivity | split; [| split; [| split; [lra |
    split; [reflexivity | split; [| split]]]]]]].
  - intros k Hk.
    assert (H0 : (0 < k)%Z) by (apply lt_IZR; lra).
    assert (H1 : (k < 1)%Z) by (apply lt_IZR; lra).
    lia.
  - unfold macro_nh3. rewrite calc_ppm_ok by (unfold RHO_NH3; lra). f_equal.
    apply NumFacts.round1_small. unfold Rdiv. rewrite !Rmult_0_l. lra.
  - unfold macro_nh3. rewrite calc_ppm_ok by (unfold RHO_NH3; lra). f_equal.
    apply NumFacts.round1_small. rewrite fan_m3h_z1_100.
    rewrite Hrate. unfold RHO_NH3. lra.
  - change (nh3_rate_g_kg_h default_globals 1 None)
      with (nh3_rate_g_kg_h default_globals 1
              (Some (NH3_RATE_BASE default_globals))).
    rewrite Hrate. lra.
  - unfold RHO_NH3. lra.
  - unfold VOL_Z1, Z1_L, Z1_B, Z1_H. lra.
Qed.

(** C3, as the code has it: [calc_ppm] never rises when the airflow
    percentage rises (emission not negative, volume not negative), and
    never falls when the substrate mass or the rate rises. *)
Theorem calc_ppm_monotone (rho vol amb : R) :
  0 < rho -> 0 <= vol ->
  (forall mass rate p1 p2, 0 <= mass -> 0 <= rate -> p1 <= p2 ->
     ppm_le (calc_ppm mass rate rho p2 vol amb) (calc_ppm mass rate rho p1 vol amb)) /\
  (forall m1 m2 rate pct, 0 <= rate -> m1 <= m2 ->
     ppm_le (calc_ppm m1 rate rho pct vol amb) (calc_ppm m2 rate rho pct vol amb)) /\
  (forall mass r1 r2 pct, 0 <= mass -> r1 <= r2 ->
     ppm_le (calc_ppm mass r1 rho pct vol amb) (calc_ppm mass r2 rho pct vol amb)).
Proof.
  intros Hrho Hvol.
  assert (Hinv : 0 < / rho) by (apply Rinv_0_lt_compat; lra).
  repeat split.
  - intros mass rate p1 p2 Hm Hr Hp.
    rewrite !calc_ppm_ok by lra. cbn. apply NumFacts.round1_mono.
    assert (He : 0 <= mass * rate / 1000 / rho).
    { apply Rmult_le_pos; [nra | lra]. }
    pose proof (dilution_antitone _ _ _ He (fan_m3h_floor p1 vol None)
                  (fan_m3h_mono p1 p2 vol Hvol Hp)).
    lra.
  - intros m1 m2 rate pct Hr Hm.
    rewrite !calc_ppm_ok by lra. cbn. apply NumFacts.round1_mono.
    assert (He : m1 * rate / 1000 / rho <= m2 * rate / 1000 / rho).
    { apply Rmult_le_compat_r; [lra | nra]. }
    pose proof (dilution_monotone _ _ _ (fan_m3h_floor pct vol None) He).
    lra.
  - intros mass r1 r2 pct Hm Hr.
    rewrite !calc_ppm_ok by lra. cbn. apply NumFacts.round1_mono.
    assert (He : mass * r1 / 1000 / rho <= mass * r2 / 1000 / rho).
    { apply Rmult_le_compat_r; [lra | nra]. }
    pose proof (dilution_monotone _ _ _ (fan_m3h_floor pct vol None) He).
    lra.
Qed.

Lemma calc_ppm_monotone_witness :
  (forall mass rate p1 p2, 0 <= mass -> 0 <= rate -> p1 <= p2 ->
     ppm_le (calc_ppm mass rate RHO_CO2 p2 VOL_Z1 CO2_AMBIENT)
            (calc_ppm mass rate RHO_CO2 p1 VOL_Z1 CO2_AMBIENT)) /\
  (forall m1 m2 rate pct, 0 <= rate -> m1 <= m2 ->
     ppm_le (calc_ppm m1 rate RHO_CO2 pct VOL_Z1 CO2_AMBIENT)
            (calc_ppm m2 rate RHO_CO2 pct VOL_Z1 CO2_AMBIENT)) /\
  (forall mass r1 r2 pct, 0 <= mass -> r1 <= r2 ->
     ppm_le (calc_ppm mass r1 RHO_CO2 pct VOL_Z1 CO2_AMBIENT)
            (calc_ppm mass r2 RHO_CO2 pct VOL_Z1 CO2_AMBIENT)).
Proof.
  apply (calc_ppm_monotone RHO_CO2 VOL_Z1 CO2_AMBIENT).
  - unfold RHO_CO2. lra.
  - unfold VOL_Z1, Z1_L, Z1_B, Z1_H. lra.
Defined.

(** C3 as stated fails: below the 1.0 m3/h floor two different airflow
    percentages of (0,100] give the same concentration, and without
    substrate every airflow gives the ambient value. *)
Lemma calc_ppm_not_strict_in_airflow :
  0 < 0.01 /\ 0.01 < 0.02 /\ 0.02 <= 100 /\
  (exists c,
      calc_ppm 51858 0.125 RHO_CO2 0.01 VOL_Z1 CO2_AMBIENT = Ok c /\
      calc_ppm 51858 0.125 RHO_CO2 0.02 VOL_Z1 CO2_AMBIENT = Ok c) /\
  ~ ppm_lt (calc_ppm 51858 0.125 RHO_CO2 0.02 VOL_Z1 CO2_AMBIENT)
           (calc_ppm 51858 0.125 RHO_CO2 0.01 VOL_Z1 CO2_AMBIENT) /\
  calc_ppm 0 0.125 RHO_CO2 20 VOL_Z1 CO2_AMBIENT = Ok 420 /\
  calc_ppm 0 0.125 RHO_CO2 100 VOL_Z1 CO2_AMBIENT = Ok 420.
Proof.
  assert (Hq1 : fan_m3h 0.01 VOL_Z1 None = 1).
  { unfold fan_m3h, VOL_Z1, Z1_L, Z1_B, Z1_H. rewrite Rmax_right; lra. }
  assert (Hq2 : fan_m3h 0.02 VOL_Z1 None = 1).
  { unfold fan_m3h, VOL_Z1, Z1_L, Z1_B, Z1_H. rewrite Rmax_right; lra. }
  assert (Hrho : RHO_CO2 <> 0) by (unfold RHO_CO2; lra).
  assert (Hzero : forall pct, calc_ppm 0 0.125 RHO_CO2 pct VOL_Z1 CO2_AMBIENT = Ok 420).
  { intros pct. rewrite calc_ppm_ok by exact Hrho. f_equal.
    replace (CO2_AMBIENT + 0 * 0.125 / 1000 / RHO_CO2 / fan_m3h pct VOL_Z1 None * 1e6)
      with (IZR 4200 / 10) by (unfold CO2_AMBIENT, Rdiv; rewrite !Rmult_0_l; lra).
    rewrite NumFacts.round1_tenth. lra. }
  repeat split; try lra; try apply Hzero.
  - eexists. split.
    + rewrite calc_ppm_ok by exact Hrho. rewrite Hq1. reflexivity.
    + rewrite calc_ppm_ok by exact Hrho. rewrite Hq2. reflexivity.
  - rewrite !calc_ppm_ok by exact Hrho. rewrite Hq1, Hq2. cbn. lra.
Qed.

(** ** Fan staging *)

(** Decides every threshold comparison in the goal. *)
Ltac decide_gtb :=
  unfold Num.gtb;
  repeat match goal with
         | |- context [Rgt_dec ?a ?b] => destruct (Rgt_dec a b)
         end.

(** C9: [fan_stage] and [get_stufe] classify alike, the stage's fan
    percent is 100, 70, 40 (20 on stage 0), and [autopilot_flow] returns
    that percent on stages 1 to 3 and [base_pct] on stage 0, whatever the
    day. *)
Theorem staging_functions_agree (g : Globals) (co2 nh3 day base_pct : R) :
  stage_nr (fan_stage g co2 nh3) = stage_nr (get_stufe g co2 nh3) /\
  stage_pct (fan_stage g co2 nh3) =
    match stage_nr (fan_stage g co2 nh3) with
    | 3%Z => 100%Z
    | 2%Z => 70%Z
    | 1%Z => 40%Z
    | _ => 20%Z
    end /\
  autopilot_flow g co2 nh3 day base_pct =
    match stage_nr (fan_stage g co2 nh3) with
    | 0%Z => base_pct
    | _ => IZR (stage_pct (fan_stage g co2 nh3))
    end /\
  (0 <= stage_nr (fan_stage g co2 nh3) <= 3)%Z /\
  autopilot_flow g co2 nh3 day base_pct = autopilot_flow g co2 nh3 0 base_pct.
Proof.
  unfold fan_stage, get_stufe, autopilot_flow, stage_nr, stage_pct.
  destruct (Num.gtb co2 (IZR (CO2_S3 g)) || Num.gtb nh3 (IZR (NH3_S3 g))).
  { cbn. repeat split; try lia; lra. }
  destruct (Num.gtb co2 (IZR (CO2_S2 g)) || Num.gtb nh3 (IZR (NH3_S2 g))).
  { cbn. repeat split; try lia; lra. }
  destruct (Num.gtb co2 (IZR (CO2_S1 g)) || Num.gtb nh3 (IZR (NH3_S1 g))).
  { cbn. repeat split; try lia; lra. }
  cbn. repeat split; lia.
Qed.

(** C2 as stated fails: a reading equal to a threshold stays in the
    lower stage.  With the default table, 3000 ppm CO2 is stage 0 and
    10000 ppm is stage 2; the autopilot keeps the base flow or 70 %. *)
Lemma threshold_equality_keeps_lower_stage :
  fan_stage default_globals 3000 0 = (0%Z, "ECO — 20%"%string, MUTED, 20%Z) /\
  get_stufe default_globals 3000 0 = (0%Z, "STANDBY / ECO"%string, MUTED, EmptyString) /\
  autopilot_flow default_globals 3000 0 1 28 = 28 /\
  stage_nr (fan_stage default_globals 10000 50) = 2%Z /\
  stage_nr (get_stufe default_globals 10000 50) = 2%Z /\
  autopilot_flow default_globals 10000 50 1 28 = 70.
Proof.
  unfold fan_stage, get_stufe, autopilot_flow, stage_nr. cbn [default_globals
    CO2_S1 CO2_S2 CO2_S3 NH3_S1 NH3_S2 NH3_S3].
  repeat split; decide_gtb; cbn; try reflexivity; try lra.
Qed.

(** C2, as the code has it: the comparisons are strict.  With an
    ordered table, a stage from 1 to 3 is reached as soon as one reading
    exceeds that stage's threshold, and it is not reached while both
    readings are at most their thresholds, equality included; the
    autopilot then returns the flow of the lower stage. *)
Theorem staging_compares_strictly
  (g : Globals) (co2 nh3 day base_pct : R) (k : Z) :
  table_ordered g -> (1 <= k <= 3)%Z ->
  (co2 > IZR (co2_threshold g k) \/ nh3 > IZR (nh3_threshold g k) ->
   (k <= stage_nr (fan_stage g co2 nh3))%Z /\
   (k <= stage_nr (get_stufe g co2 nh3))%Z) /\
  (co2 <= IZR (co2_threshold g k) /\ nh3 <= IZR (nh3_threshold g k) ->
   (stage_nr (fan_stage g co2 nh3) < k)%Z /\
   (stage_nr (get_stufe g co2 nh3) < k)%Z /\
   autopilot_flow g co2 nh3 day base_pct =
     match stage_nr (fan_stage g co2 nh3) with
     | 0%Z => base_pct
     | 1%Z => 40.0
     | _ => 70.0
     end).
Proof.
  intros [[Hc12 Hc23] [Hn12 Hn23]] Hk.
  apply IZR_le in Hc12, Hc23, Hn12, Hn23.
  assert (Hcases : k = 1%Z \/ k = 2%Z \/ k = 3%Z) by lia.
  unfold fan_stage, get_stufe, autopilot_flow, stage_nr.
  destruct Hcases as [-> | [-> | ->]]; cbn [co2_threshold nh3_threshold];
    (split; [intros [H | H] | intros [Hc Hn]]);
    decide_gtb; cbn; repeat split; try lia; try reflexivity; try lra.
Qed.

Lemma staging_compares_strictly_witness :
  (3000 > IZR (co2_threshold default_globals 1) \/
   0 > IZR (nh3_threshold default_globals 1) ->
   (1 <= stage_nr (fan_stage default_globals 3000 0))%Z /\
   (1 <= stage_nr (get_stufe default_globals 3000 0))%Z) /\
  (3000 <= IZR (co2_threshold default_globals 1) /\
   0 <= IZR (nh3_threshold default_globals 1) ->
   (stage_nr (fan_stage default_globals 3000 0) < 1)%Z /\
   (stage_nr (get_stufe default_globals 3000 0) < 1)%Z /\
   autopilot_flow default_globals 3000 0 1 28 =
     match stage_nr (fan_stage default_globals 3000 0) with
     | 0%Z => 28
     | 1%Z => 40.0
     | _ => 70.0
     end).
Proof.
  apply (staging_compares_strictly default_globals 3000 0 1 28 1).
  - unfold table_ordered. cbn. lia.
  - lia.
Defined.

(** ** Emission rates *)

Lemma co2_rate_unfold (g : Globals) (day r : R) :
  co2_rate_g_kg_h g day (Some r) =
  (p <- Num.pow_1_8 (sin (PI * (day / 8))) ;; Ok (r * (0.3 + 2.7 * p))).
Proof. reflexivity. Qed.

(** Between 0 and 1 a power 1.8 lies above the square. *)
Lemma Rpower_1_8_above_square (s : R) : 0 < s < 1 -> s * s <= Rpower s 1.8.
Proof.
  intros [H0 H1].
  assert (Hln : ln s < 0) by (rewrite <- ln_1; apply ln_increasing; lra).
  replace (s * s) with (exp (ln s + ln s)) by (rewrite exp_plus, exp_ln; lra).
  unfold Rpower. left. apply exp_increasing. lra.
Qed.

(** The square of [sin (PI / 8)]. *)
Lemma sin_PI8_square : 0.145 < sin (PI / 8) * sin (PI / 8).
Proof.
  pose proof (cos_2a (PI / 8)) as Hc.
  replace (2 * (PI / 8)) with (PI / 4) in Hc by lra.
  rewrite cos_PI4 in Hc.
  pose proof (sin2_cos2 (PI / 8)) as Hs. unfold Rsqr in Hs.
  pose proof Rlt_sqrt2_0 as Hpos.
  pose proof (sqrt_sqrt 2 ltac:(lra)) as Hsq.
  assert (Hlow : 1.41 < sqrt 2) by nra.
  assert (Hinv : 1 / sqrt 2 < 0.71).
  { apply (Rmult_lt_reg_r (sqrt 2)); [exact Hpos |].
    unfold Rdiv. rewrite Rmult_assoc, Rinv_l by lra. lra. }
  lra.
Qed.

Lemma sin_PI8_range : 0 < sin (PI / 8) < 1.
Proof.
  pose proof PI_RGT_0 as Hpi.
  assert (H0 : 0 < sin (PI / 8)) by (apply sin_gt_0; lra).
  split; [exact H0 |].
  pose proof (sin2_cos2 (PI / 8)) as Hs. unfold Rsqr in Hs.
  assert (Hc : 0 < cos (PI / 8)) by (apply cos_gt_0; lra).
  nra.
Qed.

(** C4 as stated fails at day 1: there [x] is 1/8, not 0, and the rate
    for the base rate 0.125 is above 0.086, more than twice 0.0375. *)
Lemma co2_rate_day1_not_base (g : Globals) :
  exists v, co2_rate_g_kg_h g 1 (Some 0.125) = Ok v /\ 0.086 < v.
Proof.
  rewrite co2_rate_unfold. replace (PI * (1 / 8)) with (PI / 8) by lra.
  pose proof sin_PI8_range as Hr.
  rewrite NumFacts.pow_1_8_pos by lra. cbn [bind].
  eexists. split; [reflexivity |].
  pose proof (Rpower_1_8_above_square _ Hr). pose proof sin_PI8_square. lra.
Qed.

Lemma co2_rate_day1_default_not_base :
  exists v, co2_rate_g_kg_h default_globals 1 (Some 0.125) = Ok v /\ 0.086 < v.
Proof. exact (co2_rate_day1_not_base default_globals). Qed.

(** C4, as the code has it: the value 0.0375 (factor 0.3, [x = 0])
    belongs to day 0, and day 4 gives 0.375 (factor 3.0, [x = 0.5]),
    which no day exceeds. *)
Theorem co2_rate_boundary_values (g : Globals) :
  co2_rate_g_kg_h g 0 (Some 0.125) = Ok 0.0375 /\
  co2_rate_g_kg_h g 4 (Some 0.125) = Ok 0.375 /\
  forall day, ppm_le (co2_rate_g_kg_h g day (Some 0.125)) (Ok 0.375) \/
              co2_rate_g_kg_h g day (Some 0.125) = Err NotANumber.
Proof.
  split; [| split].
  - rewrite co2_rate_unfold. replace (PI * (0 / 8)) with 0 by lra.
    rewrite sin_0, NumFacts.pow_1_8_zero. cbn [bind]. f_equal. lra.
  - rewrite co2_rate_unfold. replace (PI * (4 / 8)) with (PI / 2) by lra.
    rewrite sin_PI2, NumFacts.pow_1_8_pos by lra. cbn [bind]. f_equal.
    unfold Rpower. rewrite ln_1, Rmult_0_r, exp_0. lra.
  - intros day. rewrite co2_rate_unfold.
    destruct (SIN_bound (PI * (day / 8))) as [_ Hup].
    destruct (Rle_lt_dec 0 (sin (PI * (day / 8)))) as [Hge | Hneg].
    + left. destruct (NumFacts.pow_1_8_unit _ (conj Hge Hup)) as (p & -> & Hp).
      cbn. lra.
    + right. unfold Num.pow_1_8.
      destruct (Rlt_dec 0 (sin (PI * (day / 8)))) as [H | _]; [lra |].
      destruct (Req_dec_T (sin (PI * (day / 8))) 0) as [H | _]; [lra | reflexivity].
Qed.

(** On the days of the cycle, 0 to 8, the CO2 rate is defined and lies
    between 0.3 and 3.0 times the base rate. *)
Lemma co2_rate_defined (g : Globals) (day r : R) :
  0 <= day <= 8 -> 0 <= r ->
  exists v, co2_rate_g_kg_h g day (Some r) = Ok v /\ 0.3 * r <= v <= 3 * r.
Proof.
  intros Hd Hr. rewrite co2_rate_unfold.
  pose proof PI_RGT_0 as Hpi.
  assert (Hs : 0 <= sin (PI * (day / 8)) <= 1).
  { split; [apply sin_ge_0; nra | apply SIN_bound]. }
  destruct (NumFacts.pow_1_8_unit _ Hs) as (p & -> & Hp). cbn [bind].
  eexists. split; [reflexivity | nra].
Qed.

Lemma nh3_rate_unfold (g : Globals) (day b : R) :
  nh3_rate_g_kg_h g day (Some b) =
  if Num.ltb (day / 8) 0.45 then nh3_linear_branch b (day / 8)
  else nh3_exp_branch b (day / 8).
Proof. reflexivity. Qed.

(** C5: at [x = 0.45], day 3.6, both branches of the NH3 rate give 1.5
    times the base rate, the function takes that value, the branches
    agree within 1e-9 for the base rate 1.0, and the rate is continuous
    in the day there. *)
Theorem nh3_rate_continuous_at_breakpoint (g : Globals) (b : R) :
  nh3_linear_branch b 0.45 = 1.5 * b /\
  nh3_exp_branch b 0.45 = 1.5 * b /\
  nh3_rate_g_kg_h g 3.6 (Some b) = 1.5 * b /\
  Rabs (nh3_linear_branch 1.0 0.45 - nh3_exp_branch 1.0 0.45) <= 1e-9 /\
  continuity_pt (fun day => nh3_rate_g_kg_h g day (Some b)) 3.6.
Proof.
  assert (Hlin : forall c, nh3_linear_branch c 0.45 = 1.5 * c).
  { intros c. unfold nh3_linear_branch. lra. }
  assert (Hexp : forall c, nh3_exp_branch c 0.45 = 1.5 * c).
  { intros c. unfold nh3_exp_branch.
    replace (2.6 * (0.45 - 0.45)) with 0 by lra. rewrite exp_0. lra. }
  assert (Hval : nh3_rate_g_kg_h g 3.6 (Some b) = 1.5 * b).
  { rewrite nh3_rate_unfold. replace (3.6 / 8) with 0.45 by lra.
    destruct (Num.ltb 0.45 0.45) eqn:E.
    - apply NumFacts.ltb_true_iff in E. lra.
    - apply Hexp. }
  repeat split; auto.
  - rewrite Hlin, Hexp. replace (1.5 * 1.0 - 1.5 * 1.0) with 0 by lra.
    rewrite Rabs_R0. lra.
  - unfold continuity_pt, continue_in, limit1_in, limit_in. cbn [dist R_met Base].
    unfold R_dist. intros eps Heps. rewrite Hval.
    set (B := Rabs b + 1).
    assert (HB : 0 < B) by (unfold B; pose proof (Rabs_pos b); lra).
    assert (HbB : Rabs b < B) by (unfold B; lra).
    pose proof (derivable_continuous_pt exp 0 (derivable_pt_exp 0)) as Hc.
    unfold continuity_pt, continue_in, limit1_in, limit_in in Hc.
    cbn [dist R_met Base] in Hc. unfold R_dist in Hc.
    assert (He1 : eps / (1.5 * B) > 0).
    { apply Rdiv_lt_0_compat; lra. }
    destruct (Hc _ He1) as (d & Hd & Hexpc). rewrite exp_0 in Hexpc.
    exists (Rmin (eps / B) d). split.
    { apply Rmin_Rgt_r. split; [apply Rdiv_lt_0_compat; lra | exact Hd]. }
    intros day [_ Hnear]. apply Rmin_Rgt_l in Hnear. destruct Hnear as [Hn1 Hn2].
    rewrite nh3_rate_unfold.
    destruct (Num.ltb (day / 8) 0.45) eqn:E.
    + apply NumFacts.ltb_true_iff in E. unfold nh3_linear_branch.
      replace (b * (1.0 + 0.5 * (day / 8) / 0.45) - 1.5 * b)
        with (b * ((day - 3.6) * (5 / 36))) by lra.
      rewrite Rabs_mult, Rabs_mult, (Rabs_right (5 / 36)) by lra.
      pose proof (Rabs_pos b) as Hb0. pose proof (Rabs_pos (day - 3.6)) as Hd0.
      assert (HB1 : B * (eps / B) = eps) by (field; lra).
      nra.
    + apply NumFacts.ltb_false_iff in E. unfold nh3_exp_branch.
      replace (b * 1.5 * exp (2.6 * (day / 8 - 0.45)) - 1.5 * b)
        with (b * (1.5 * (exp (2.6 * (day / 8 - 0.45)) - 1))) by lra.
      rewrite Rabs_mult, Rabs_mult, (Rabs_right 1.5) by lra.
      pose proof (Rabs_pos b) as Hb0.
      assert (Ht : Rabs (exp (2.6 * (day / 8 - 0.45)) - 1) < eps / (1.5 * B)).
      { destruct (Req_dec (2.6 * (day / 8 - 0.45)) 0) as [Hz | Hnz].
        - rewrite Hz, exp_0. replace (1 - 1) with 0 by lra. rewrite Rabs_R0. lra.
        - apply Hexpc. split.
          + split; [exact I | intros Hq; apply Hnz; symmetry; exact Hq].
          + rewrite Rminus_0_r. rewrite Rabs_right by lra.
            rewrite Rabs_right in Hn2 by lra. lra. }
      pose proof (Rabs_pos (exp (2.6 * (day / 8 - 0.45)) - 1)) as Ht0.
      assert (HB1 : B * (1.5 * (eps / (1.5 * B))) = eps) by (field; lra).
      nra.
Qed.

(** ** History series *)

Section HistoryFacts.

Context {A : Type}.

Implicit Types (lst : list A) (val : A).

Lemma slice_last_short (n : nat) lst :
  (length lst <= n)%nat -> slice_last n lst = lst.
Proof.
  intros H. unfold slice_last.
  replace (length lst - n)%nat with 0%nat by lia. reflexivity.
Qed.

Lemma slice_last_length (n : nat) lst :
  length (slice_last n lst) = Nat.min n (length lst).
Proof. unfold slice_last. rewrite length_skipn. lia. Qed.

(** The slice is what is left after dropping a prefix. *)
Lemma slice_last_split (n : nat) lst :
  lst = firstn (length lst - n) lst ++ slice_last n lst.
Proof. unfold slice_last. now rewrite firstn_skipn. Qed.

(** Trimming early does not change what a later trim keeps. *)
Lemma slice_last_app (n : nat) lst (more : list A) :
  slice_last n (slice_last n lst ++ more) = slice_last n (lst ++ more).
Proof.
  destruct (Nat.le_gt_cases (length lst) n) as [Hle | Hgt].
  - rewrite (slice_last_short n lst Hle). reflexivity.
  - rewrite (slice_last_split n lst) at 2.
    set (pre := firstn (length lst - n) lst).
    assert (Hpre : length pre = (length lst - n)%nat).
    { unfold pre. rewrite length_firstn. lia. }
    assert (Hsuf : length (slice_last n lst) = n).
    { rewrite slice_last_length. lia. }
    unfold slice_last at 1 3. rewrite <- app_assoc, !length_app, Hsuf, Hpre.
    assert (Hidx : (length lst - n + (n + length more) - n
                    = length pre + (n + length more - n))%nat) by lia.
    rewrite Hidx, (Nat.add_comm (length pre)), <- skipn_skipn.
    rewrite (skipn_app (length pre) pre), Nat.sub_diag, skipn_all.
    reflexivity.
Qed.

Lemma hist_append_slice lst val :
  hist_append lst val = slice_last 200 (lst ++ [val]).
Proof.
  unfold hist_append. destruct (200 <? length (lst ++ [val]))%nat eqn:E.
  - reflexivity.
  - apply Nat.ltb_ge in E. symmetry. apply slice_last_short, E.
Qed.

Lemma hist_append_length lst val : (length (hist_append lst val) <= 200)%nat.
Proof. rewrite hist_append_slice, slice_last_length. lia. Qed.

(** A run of appends keeps the last 200 of everything seen. *)
Lemma hist_append_run (vals : list A) : forall lst,
  (length lst <= 200)%nat ->
  fold_left hist_append vals lst = slice_last 200 (lst ++ vals).
Proof.
  induction vals as [| v vals IH]; intros lst Hlen; cbn [fold_left].
  - rewrite app_nil_r. symmetry. apply slice_last_short, Hlen.
  - rewrite IH by apply hist_append_length.
    rewrite hist_append_slice, slice_last_app, <- app_assoc. reflexivity.
Qed.

(** One append, and a run of 250 appends from the empty series. *)
Lemma hist_append_fifo :
  (forall lst val, (length (hist_append lst val) <= 200)%nat) /\
  (forall lst val, exists dropped,
      lst ++ [val] = dropped ++ hist_append lst val /\
      length dropped = (length lst + 1 - 200)%nat) /\
  (forall vals : list A, length vals = 250%nat ->
      fold_left hist_append vals [] = skipn 50 vals /\
      length (fold_left hist_append vals []) = 200%nat /\
      vals = firstn 50 vals ++ fold_left hist_append vals []).
Proof.
  split; [| split].
  - apply hist_append_length.
  - intros lst val. exists (firstn (length (lst ++ [val]) - 200) (lst ++ [val])).
    rewrite hist_append_slice. split.
    + apply slice_last_split.
    + rewrite length_firstn, length_app. cbn [length]. lia.
  - intros vals Hlen.
    assert (Hrun : fold_left hist_append vals [] = skipn 50 vals).
    { rewrite hist_append_run by (cbn; lia). cbn [app]. unfold slice_last.
      now rewrite Hlen. }
    rewrite Hrun. repeat split.
    + rewrite length_skipn. lia.
    + now rewrite firstn_skipn.
Qed.

End HistoryFacts.

(** The eviction run on the samples 1 to 250. *)
Example history_eviction_run :
  fold_left hist_append (seq 1 250) [] = seq 51 200.
Proof. vm_compute. reflexivity. Qed.

(** ** Session handlers *)

(** C8: whatever state the ticks and appends have left, RESET yields
    the defaults of [_def] with the one-sample history series, leaves the
    keys outside [_def] alone, and a second RESET changes nothing. *)
Theorem reset_idempotent (s : SessionState) :
  reset (reset s) = reset s /\
  reset s =
    mkSession false 0 1.0 30.0 25.0 [0.0] [420.0] [0.2] [420.0] [0.2] [30.0]
      (co2_rate_avg s) (nh3_rate_base s) /\
  (forall co2_r nh3_r,
      co2_rate_avg s = Some co2_r -> nh3_rate_base s = Some nh3_r ->
      reset s = initial_session co2_r nh3_r).
Proof.
  split; [| split].
  - reflexivity.
  - reflexivity.
  - intros co2_r nh3_r Hc Hn. unfold initial_session, reset, assign_all, _def.
    cbn. now rewrite Hc, Hn.
Qed.

(** START differs from RESET in the activity flag only. *)
Lemma start_is_reset_active (s : SessionState) :
  start s = set_key K_sim_active (VBool true) (reset s).
Proof. reflexivity. Qed.

(** ** The autopilot tick *)

Lemma macro_nh3_value (g : Globals) (mass flow vol day : R) :
  macro_nh3 g mass flow vol day None =
  Ok (Num.round1
        (0.02 + mass * nh3_rate_g_kg_h g day (Some (NH3_RATE_BASE g)) / 1000
                / RHO_NH3 / fan_m3h flow vol None * 1e6)).
Proof. unfold macro_nh3. apply calc_ppm_ok. unfold RHO_NH3. lra. Qed.

(** On the days 0 to 8 the CO2 concentration is defined, with one rate
    for all masses, airflows and volumes. *)
Lemma macro_co2_value (g : Globals) (day : R) :
  0 <= day <= 8 -> 0 <= CO2_RATE_AVG g ->
  exists rate,
    0.3 * CO2_RATE_AVG g <= rate <= 3 * CO2_RATE_AVG g /\
    forall mass flow vol,
      macro_co2 g mass flow vol day None =
      Ok (Num.round1
            (CO2_AMBIENT + mass * rate / 1000 / RHO_CO2
                           / fan_m3h flow vol None * 1e6)).
Proof.
  intros Hd Hr.
  destruct (co2_rate_defined g day (CO2_RATE_AVG g) Hd Hr) as (rate & Hrate & Hb).
  exists rate. split; [lra |]. intros mass flow vol.
  unfold macro_co2. rewrite Hrate. cbn [bind].
  apply calc_ppm_ok. unfold RHO_CO2. lra.
Qed.

Lemma macro_co2_total (g : Globals) (mass flow vol day : R) :
  0 <= day <= 8 -> exists c, macro_co2 g mass flow vol day None = Ok c.
Proof.
  intros Hd. unfold macro_co2.
  pose proof PI_RGT_0 as Hpi.
  assert (Hs : 0 <= sin (PI * (day / 8)) <= 1).
  { split; [apply sin_ge_0; nra | apply SIN_bound]. }
  rewrite co2_rate_unfold.
  destruct (NumFacts.pow_1_8_unit _ Hs) as (p & -> & _). cbn [bind].
  eexists. apply calc_ppm_ok. unfold RHO_CO2. lra.
Qed.

(** The day of a tick lies in the cycle. *)
Lemma tick_day_range (step : Z) :
  (0 <= step)%Z ->
  1 <= Rmin 8.0 (1.0 + IZR step * (7.0 / 120.0)) <= 8.
Proof.
  intros Hs. apply IZR_le in Hs.
  unfold Rmin. destruct (Rle_dec 8.0 (1.0 + IZR step * (7.0 / 120.0))); lra.
Qed.

(** Counting the day up from the step is adding the increment. *)
Lemma tick_day_increment (step : Z) :
  Rmin 8.0 (1.0 + IZR (step + 1) * (7.0 / 120.0)) =
  Rmin 8.0 (Rmin 8.0 (1.0 + IZR step * (7.0 / 120.0)) + 7.0 / 120.0).
Proof.
  rewrite plus_IZR.
  destruct (Rle_dec 8.0 (1.0 + IZR step * (7.0 / 120.0))) as [Hfull | Hbelow].
  - rewrite (Rmin_left 8.0 (1.0 + IZR step * (7.0 / 120.0))) by exact Hfull.
    rewrite !Rmin_left by lra. reflexivity.
  - rewrite (Rmin_right 8.0 (1.0 + IZR step * (7.0 / 120.0))) by lra.
    f_equal. lra.
Qed.

(** The tick, once its eight concentrations are known. *)
Lemma autopilot_tick_result
  (g0 : Globals) (inp : Inputs) (s : SessionState)
  (c1 n1 c2 n2 co2_1 nh3_1 co2_2 nh3_2 : R) :
  let g := session_globals g0 s in
  let step := (sim_step s + 1)%Z in
  let day := Rmin 8.0 (1.0 + IZR step * (7.0 / 120.0)) in
  let f1 := autopilot_flow g c1 n1 day 28.0 in
  let f2 := autopilot_flow g c2 n2 day 22.0 in
  macro_co2 g (mass_z1 inp * 1000) 0 VOL_Z1 day None = Ok c1 ->
  macro_nh3 g (mass_z1 inp * 1000) 0 VOL_Z1 day None = Ok n1 ->
  macro_co2 g (mass_z2 inp * 1000) 0 VOL_Z2 day None = Ok c2 ->
  macro_nh3 g (mass_z2 inp * 1000) 0 VOL_Z2 day None = Ok n2 ->
  macro_co2 g (mass_z1 inp * 1000) f1 VOL_Z1 day None = Ok co2_1 ->
  macro_nh3 g (mass_z1 inp * 1000) f1 VOL_Z1 day None = Ok nh3_1 ->
  macro_co2 g (mass_z2 inp * 1000) f2 VOL_Z2 day None = Ok co2_2 ->
  macro_nh3 g (mass_z2 inp * 1000) f2 VOL_Z2 day None = Ok nh3_2 ->
  autopilot_tick g0 inp s =
  Ok (mkSession (sim_active s) step day f1 f2
        (hist_append (hist_t s) (IZR step * 0.25 / 60.0))
        (hist_append (hist_co2_z1 s) co2_1)
        (hist_append (hist_nh3_z1 s) nh3_1)
        (hist_append (hist_co2_z2 s) co2_2)
        (hist_append (hist_nh3_z2 s) nh3_2)
        (hist_append (hist_flow_z1 s) f1)
        (co2_rate_avg s) (nh3_rate_base s),
      mkReadings day f1 f2 co2_1 nh3_1 co2_2 nh3_2).
Proof.
  intros g step day f1 f2 H1 H2 H3 H4 H5 H6 H7 H8.
  unfold autopilot_tick.
  cbn [set_key sim_step mast_day].
  fold g. fold step. fold day.
  rewrite H1. cbn [bind]. rewrite H2. cbn [bind].
  rewrite H3. cbn [bind]. rewrite H4. cbn [bind].
  fold f1. fold f2.
  rewrite H5. cbn [bind]. rewrite H6. cbn [bind].
  rewrite H7. cbn [bind]. rewrite H8. cbn [bind].
  reflexivity.
Qed.

(** C1, as the code has it: a tick of the active simulation counts the
    step up and advances the day by 7/120, clamped at 8.0; it then stages
    the next airflow of each zone from the concentrations evaluated at the
    airflow percentage 0, stores it, evaluates the four concentrations at
    that new airflow, and appends one sample to every history series. *)
Theorem autopilot_tick_order (g0 : Globals) (inp : Inputs) (s : SessionState) :
  sim_active s = true -> day_follows_step s ->
  exists s' rd c1 n1 c2 n2,
    simulation g0 inp s = Ok (s', rd) /\
    sim_step s' = (sim_step s + 1)%Z /\
    mast_day s' = Rmin 8.0 (mast_day s + 7.0 / 120.0) /\
    day_follows_step s' /\
    r_mast_day rd = mast_day s' /\
    macro_co2 (session_globals g0 s) (mass_z1 inp * 1000) 0 VOL_Z1 (mast_day s') None = Ok c1 /\
    macro_nh3 (session_globals g0 s) (mass_z1 inp * 1000) 0 VOL_Z1 (mast_day s') None = Ok n1 /\
    macro_co2 (session_globals g0 s) (mass_z2 inp * 1000) 0 VOL_Z2 (mast_day s') None = Ok c2 /\
    macro_nh3 (session_globals g0 s) (mass_z2 inp * 1000) 0 VOL_Z2 (mast_day s') None = Ok n2 /\
    flow_z1 s' = autopilot_flow (session_globals g0 s) c1 n1 (mast_day s') 28.0 /\
    flow_z2 s' = autopilot_flow (session_globals g0 s) c2 n2 (mast_day s') 22.0 /\
    r_flow_z1 rd = flow_z1 s' /\
    r_flow_z2 rd = flow_z2 s' /\
    macro_co2 (session_globals g0 s) (mass_z1 inp * 1000) (flow_z1 s') VOL_Z1 (mast_day s') None
      = Ok (r_co2_z1 rd) /\
    macro_nh3 (session_globals g0 s) (mass_z1 inp * 1000) (flow_z1 s') VOL_Z1 (mast_day s') None
      = Ok (r_nh3_z1 rd) /\
    macro_co2 (session_globals g0 s) (mass_z2 inp * 1000) (flow_z2 s') VOL_Z2 (mast_day s') None
      = Ok (r_co2_z2 rd) /\
    macro_nh3 (session_globals g0 s) (mass_z2 inp * 1000) (flow_z2 s') VOL_Z2 (mast_day s') None
      = Ok (r_nh3_z2 rd) /\
    hist_t s' = hist_append (hist_t s) (IZR (sim_step s') * 0.25 / 60.0) /\
    hist_co2_z1 s' = hist_append (hist_co2_z1 s) (r_co2_z1 rd) /\
    hist_nh3_z1 s' = hist_append (hist_nh3_z1 s) (r_nh3_z1 rd) /\
    hist_co2_z2 s' = hist_append (hist_co2_z2 s) (r_co2_z2 rd) /\
    hist_nh3_z2 s' = hist_append (hist_nh3_z2 s) (r_nh3_z2 rd) /\
    hist_flow_z1 s' = hist_append (hist_flow_z1 s) (flow_z1 s') /\
    sim_active s' = true.
Proof.
  intros Hact [Hstep Hday].
  set (g := session_globals g0 s).
  set (step := (sim_step s + 1)%Z).
  set (day := Rmin 8.0 (1.0 + IZR step * (7.0 / 120.0))).
  assert (Hrange : 0 <= day <= 8).
  { pose proof (tick_day_range step ltac:(unfold step; lia)). fold day in H. lra. }
  destruct (macro_co2_total g (mass_z1 inp * 1000) 0 VOL_Z1 day Hrange) as [c1 H1].
  pose proof (macro_nh3_value g (mass_z1 inp * 1000) 0 VOL_Z1 day) as H2.
  destruct (macro_co2_total g (mass_z2 inp * 1000) 0 VOL_Z2 day Hrange) as [c2 H3].
  pose proof (macro_nh3_value g (mass_z2 inp * 1000) 0 VOL_Z2 day) as H4.
  set (n1 := Num.round1 _) in H2. set (n2 := Num.round1 _) in H4.
  set (f1 := autopilot_flow g c1 n1 day 28.0).
  set (f2 := autopilot_flow g c2 n2 day 22.0).
  destruct (macro_co2_total g (mass_z1 inp * 1000) f1 VOL_Z1 day Hrange) as [co2_1 H5].
  pose proof (macro_nh3_value g (mass_z1 inp * 1000) f1 VOL_Z1 day) as H6.
  destruct (macro_co2_total g (mass_z2 inp * 1000) f2 VOL_Z2 day Hrange) as [co2_2 H7].
  pose proof (macro_nh3_value g (mass_z2 inp * 1000) f2 VOL_Z2 day) as H8.
  set (nh3_1 := Num.round1 _) in H6. set (nh3_2 := Num.round1 _) in H8.
  pose proof (autopilot_tick_result g0 inp s c1 n1 c2 n2 co2_1 nh3_1 co2_2 nh3_2
                H1 H2 H3 H4 H5 H6 H7 H8) as Htick.
  eexists _, _, c1, n1, c2, n2.
  split; [unfold simulation; rewrite Hact; exact Htick |].
  cbn [sim_step mast_day flow_z1 flow_z2 sim_active hist_t hist_co2_z1 hist_nh3_z1
       hist_co2_z2 hist_nh3_z2 hist_flow_z1 r_mast_day r_flow_z1 r_flow_z2
       r_co2_z1 r_nh3_z1 r_co2_z2 r_nh3_z2].
  fold g step day f1 f2.
  repeat match goal with |- _ /\ _ => split end;
    try reflexivity; try assumption.
  - rewrite Hday. apply tick_day_increment.
  - unfold day_follows_step. cbn [sim_step mast_day]. split; [unfold step; lia | reflexivity].
Qed.

Lemma autopilot_tick_order_witness :
  sim_active started_session = true /\
  day_follows_step started_session /\
  exists s' rd,
    simulation default_globals default_inputs started_session = Ok (s', rd) /\
    sim_step s' = 1%Z /\
    mast_day s' = Rmin 8.0 (1.0 + 7.0 / 120.0).
Proof.
  assert (Hact : sim_active started_session = true) by reflexivity.
  assert (Hinv : day_follows_step started_session).
  { split; [cbn; lia |]. cbn. rewrite Rmin_right by lra. lra. }
  split; [exact Hact |]. split; [exact Hinv |].
  destruct (autopilot_tick_order default_globals default_inputs started_session Hact Hinv)
    as (s' & rd & c1 & n1 & c2 & n2 & Hrun & Hs & Hd & _).
  exists s', rd. split; [exact Hrun |]. split; [exact Hs | exact Hd].
Defined.

(** The tick of the specification's wording, once its four
    concentrations are known. *)
Lemma spec_tick_result
  (g0 : Globals) (inp : Inputs) (s : SessionState) (co2_1 nh3_1 co2_2 nh3_2 : R) :
  let g := session_globals g0 s in
  let step := (sim_step s + 1)%Z in
  let day := Rmin 8.0 (mast_day s + 7.0 / 120.0) in
  let f1 := autopilot_flow g co2_1 nh3_1 day 28.0 in
  let f2 := autopilot_flow g co2_2 nh3_2 day 22.0 in
  macro_co2 g (mass_z1 inp * 1000) (flow_z1 s) VOL_Z1 day None = Ok co2_1 ->
  macro_nh3 g (mass_z1 inp * 1000) (flow_z1 s) VOL_Z1 day None = Ok nh3_1 ->
  macro_co2 g (mass_z2 inp * 1000) (flow_z2 s) VOL_Z2 day None = Ok co2_2 ->
  macro_nh3 g (mass_z2 inp * 1000) (flow_z2 s) VOL_Z2 day None = Ok nh3_2 ->
  spec_tick g0 inp s =
  Ok (mkSession (sim_active s) step day f1 f2
        (hist_append (hist_t s) (IZR step * 0.25 / 60.0))
        (hist_append (hist_co2_z1 s) co2_1)
        (hist_append (hist_nh3_z1 s) nh3_1)
        (hist_append (hist_co2_z2 s) co2_2)
        (hist_append (hist_nh3_z2 s) nh3_2)
        (hist_append (hist_flow_z1 s) f1)
        (co2_rate_avg s) (nh3_rate_base s),
      mkReadings day f1 f2 co2_1 nh3_1 co2_2 nh3_2).
Proof.
  intros g step day f1 f2 H1 H2 H3 H4.
  unfold spec_tick. fold g. fold step. fold day.
  rewrite H1. cbn [bind]. rewrite H2. cbn [bind].
  rewrite H3. cbn [bind]. rewrite H4. cbn [bind].
  reflexivity.
Qed.

(** C1 as stated fails on the first tick after START with the default
    sidebar: the code stages the airflow first, from the concentrations
    at airflow 0, which sends zone 01 to 100 %, and records the CO2
    concentration at that new airflow; the concentration at the previous
    airflow, 30 %, which the wording prescribes, is more than 500 ppm
    higher. *)
Lemma tick_records_ppm_at_new_airflow :
  exists s_code rd_code s_spec rd_spec,
    simulation default_globals default_inputs started_session = Ok (s_code, rd_code) /\
    spec_tick default_globals default_inputs started_session = Ok (s_spec, rd_spec) /\
    flow_z1 started_session = 30.0 /\
    flow_z1 s_code = 100.0 /\
    macro_co2 default_globals 51858 100.0 VOL_Z1 (mast_day s_code) None
      = Ok (r_co2_z1 rd_code) /\
    macro_co2 default_globals 51858 30.0 VOL_Z1 (mast_day s_code) None
      = Ok (r_co2_z1 rd_spec) /\
    hist_co2_z1 s_code = [420.0; r_co2_z1 rd_code] /\
    hist_co2_z1 s_spec = [420.0; r_co2_z1 rd_spec] /\
    r_co2_z1 rd_code + 500 < r_co2_z1 rd_spec.
Proof.
  set (s := started_session). set (inp := default_inputs).
  assert (Hg : session_globals default_globals s = default_globals) by reflexivity.
  set (day := Rmin 8.0 (1.0 + IZR (sim_step s + 1) * (7.0 / 120.0))).
  assert (Hday : day = 127 / 120).
  { unfold day. cbn [s started_session start assign_all fold_left set_key fst snd sim_step].
    cbn [Z.add Pos.add]. rewrite Rmin_right; lra. }
  assert (Hday' : Rmin 8.0 (mast_day s + 7.0 / 120.0) = day).
  { rewrite Hday. cbn [s started_session start assign_all fold_left set_key fst snd mast_day].
    rewrite Rmin_right; lra. }
  assert (Hrange : 0 <= day <= 8) by (rewrite Hday; lra).
  destruct (macro_co2_value default_globals day Hrange ltac:(cbn; lra))
    as (rate & Hrate & Hco2).
  cbn [default_globals CO2_RATE_AVG] in Hrate.
  assert (Hm1 : mass_z1 inp * 1000 = 51858) by (cbn; lra).
  (* the code's run *)
  pose proof (Hco2 (mass_z1 inp * 1000) 0 VOL_Z1) as H1.
  pose proof (macro_nh3_value default_globals (mass_z1 inp * 1000) 0 VOL_Z1 day) as H2.
  pose proof (Hco2 (mass_z2 inp * 1000) 0 VOL_Z2) as H3.
  pose proof (macro_nh3_value default_globals (mass_z2 inp * 1000) 0 VOL_Z2 day) as H4.
  set (c1 := Num.round1 _) in H1. set (n1 := Num.round1 _) in H2.
  set (c2 := Num.round1 _) in H3. set (n2 := Num.round1 _) in H4.
  assert (Hf1 : autopilot_flow default_globals c1 n1 day 28.0 = 100.0).
  { unfold autopilot_flow. cbn [default_globals CO2_S3].
    assert (Hgt : Num.gtb c1 10000 = true).
    { apply NumFacts.gtb_true_iff. pose proof (NumFacts.round1_near
        (CO2_AMBIENT + mass_z1 inp * 1000 * rate / 1000 / RHO_CO2
                       / fan_m3h 0 VOL_Z1 None * 1e6)) as Hn.
      fold c1 in Hn. rewrite fan_m3h_zero, Hm1 in Hn.
      unfold CO2_AMBIENT, RHO_CO2 in Hn. lra. }
    rewrite Hgt. reflexivity. }
  set (f2 := autopilot_flow default_globals c2 n2 day 22.0).
  pose proof (Hco2 (mass_z1 inp * 1000) 100.0 VOL_Z1) as H5.
  pose proof (macro_nh3_value default_globals (mass_z1 inp * 1000) 100.0 VOL_Z1 day) as H6.
  pose proof (Hco2 (mass_z2 inp * 1000) f2 VOL_Z2) as H7.
  pose proof (macro_nh3_value default_globals (mass_z2 inp * 1000) f2 VOL_Z2 day) as H8.
  set (a1 := Num.round1 _) in H5. set (b1 := Num.round1 _) in H6.
  set (a2 := Num.round1 _) in H7. set (b2 := Num.round1 _) in H8.
  assert (Hcode : simulation default_globals inp s =
                  Ok (mkSession true 1 day 100.0 f2
                        [0.0; 1 * 0.25 / 60.0] [420.0; a1] [0.2; b1]
                        [420.0; a2] [0.2; b2] [30.0; 100.0]
                        (Some 0.125) (Some 0.001),
                      mkReadings day 100.0 f2 a1 b1 a2 b2)).
  { unfold simulation. change (sim_active s) with true. cbv iota.
    rewrite (autopilot_tick_result default_globals inp s c1 n1 c2 n2 a1 b1 a2 b2);
      rewrite ?Hg; fold day; rewrite ?Hf1; try assumption.
    reflexivity. }
  (* the run of the wording *)
  pose proof (Hco2 (mass_z1 inp * 1000) 30.0 VOL_Z1) as S1.
  pose proof (macro_nh3_value default_globals (mass_z1 inp * 1000) 30.0 VOL_Z1 day) as S2.
  pose proof (Hco2 (mass_z2 inp * 1000) 25.0 VOL_Z2) as S3.
  pose proof (macro_nh3_value default_globals (mass_z2 inp * 1000) 25.0 VOL_Z2 day) as S4.
  set (p1 := Num.round1 _) in S1. set (q1 := Num.round1 _) in S2.
  set (p2 := Num.round1 _) in S3. set (q2 := Num.round1 _) in S4.
  pose proof (spec_tick_result default_globals inp s p1 q1 p2 q2) as Hspec.
  cbv zeta in Hspec. rewrite Hg, Hday' in Hspec.
  change (flow_z1 s) with 30.0 in Hspec. change (flow_z2 s) with 25.0 in Hspec.
  specialize (Hspec S1 S2 S3 S4).
  eexists _, _, _, _.
  split; [exact Hcode |]. split; [exact Hspec |].
  cbn [flow_z1 hist_co2_z1 r_co2_z1 mast_day].
  split; [reflexivity |]. split; [reflexivity |].
  split; [rewrite <- Hm1; exact H5 |]. split; [rewrite <- Hm1; exact S1 |].
  split; [reflexivity |]. split; [reflexivity |].
  pose proof (NumFacts.round1_near
    (CO2_AMBIENT + mass_z1 inp * 1000 * rate / 1000 / RHO_CO2
                   / fan_m3h 100.0 VOL_Z1 None * 1e6)) as Ha.
  pose proof (NumFacts.round1_near
    (CO2_AMBIENT + mass_z1 inp * 1000 * rate / 1000 / RHO_CO2
                   / fan_m3h 30.0 VOL_Z1 None * 1e6)) as Hp.
  fold a1 in Ha. fold p1 in Hp.
  rewrite fan_m3h_z1_100, Hm1 in Ha. rewrite fan_m3h_z1_30, Hm1 in Hp.
  unfold CO2_AMBIENT, RHO_CO2 in Ha, Hp. lra.
Qed.

(** ** The history series of the session *)

Lemma bind_ok {A B : Type} (c : pyres A) (k : A -> pyres B) (b : B) :
  bind c k = Ok b -> exists a, c = Ok a /\ k a = Ok b.
Proof.
  destruct c as [a | e]; cbn; intros H; [now exists a | discriminate].
Qed.

(** Either branch of the simulation block appends one value to each of
    the six series. *)
Lemma simulation_appends
  (g0 : Globals) (inp : Inputs) (s s' : SessionState) (rd : Readings) :
  simulation g0 inp s = Ok (s', rd) ->
  (exists t_val, hist_t s' = hist_append (hist_t s) t_val) /\
  hist_co2_z1 s' = hist_append (hist_co2_z1 s) (r_co2_z1 rd) /\
  hist_nh3_z1 s' = hist_append (hist_nh3_z1 s) (r_nh3_z1 rd) /\
  hist_co2_z2 s' = hist_append (hist_co2_z2 s) (r_co2_z2 rd) /\
  hist_nh3_z2 s' = hist_append (hist_nh3_z2 s) (r_nh3_z2 rd) /\
  hist_flow_z1 s' = hist_append (hist_flow_z1 s) (r_flow_z1 rd).
Proof.
  unfold simulation. intros H.
  destruct (sim_active s); [unfold autopilot_tick in H | unfold manual_sample in H];
    cbv zeta in H;
    repeat (apply bind_ok in H; destruct H as (? & _ & H); cbv beta zeta in H);
    injection H as <- <-;
    cbn [append_samples fold_left set_key get_hist fst snd
         hist_t hist_co2_z1 hist_nh3_z1 hist_co2_z2 hist_nh3_z2 hist_flow_z1
         r_co2_z1 r_nh3_z1 r_co2_z2 r_nh3_z2 r_flow_z1];
    (split; [eexists; reflexivity | repeat split]).
Qed.

(** C6: after every append a series has at most 200 entries; the
    result is the old series with the new value at the end, less a prefix
    of the oldest entries that is empty below the capacity; 250 appends to
    an empty series leave the last 200 values in their order, the oldest
    50 gone; and every run of the simulation block leaves each of the six
    series of the session with at most 200 entries. *)
Theorem history_keeps_last_200 :
  (forall (A : Type) (lst : list A) (val : A),
      (length (hist_append lst val) <= 200)%nat) /\
  (forall (A : Type) (lst : list A) (val : A), exists dropped,
      lst ++ [val] = dropped ++ hist_append lst val /\
      length dropped = (length lst + 1 - 200)%nat) /\
  (forall (A : Type) (vals : list A), length vals = 250%nat ->
      fold_left hist_append vals [] = skipn 50 vals /\
      length (fold_left hist_append vals []) = 200%nat /\
      vals = firstn 50 vals ++ fold_left hist_append vals []) /\
  (forall g0 inp s s' rd, simulation g0 inp s = Ok (s', rd) ->
      (length (hist_t s') <= 200)%nat /\
      (length (hist_co2_z1 s') <= 200)%nat /\
      (length (hist_nh3_z1 s') <= 200)%nat /\
      (length (hist_co2_z2 s') <= 200)%nat /\
      (length (hist_nh3_z2 s') <= 200)%nat /\
      (length (hist_flow_z1 s') <= 200)%nat).
Proof.
  split; [| split; [| split]].
  - intros A. apply hist_append_fifo.
  - intros A. apply hist_append_fifo.
  - intros A. apply hist_append_fifo.
  - intros g0 inp s s' rd Hrun.
    destruct (simulation_appends g0 inp s s' rd Hrun)
      as ([t_val ->] & -> & -> & -> & -> & ->).
    repeat split; apply hist_append_length.
Qed.

(** * Further properties of the code *)

(** ** Air changes per hour *)

Lemma round2_near (x : R) : round2 x - 1 / 200 <= x <= round2 x + 1 / 200.
Proof.
  unfold round2. pose proof (NumFacts.rint_near (x * 100)). lra.
Qed.

Lemma round2_mono (x y : R) : x <= y -> round2 x <= round2 y.
Proof.
  intros Hxy. unfold round2.
  assert (H : (Num.rint (x * 100) <= Num.rint (y * 100))%Z)
    by (apply NumFacts.rint_mono; lra).
  apply IZR_le in H. lra.
Qed.

Lemma round2_int (k : Z) : round2 (IZR k) = IZR k.
Proof.
  unfold round2. rewrite <- mult_IZR, NumFacts.rint_IZR, mult_IZR. lra.
Qed.

(** X1: for a zone of at least 1/6 m3 and a fan percentage from 0 to
    100, [ach_val] and its alias [ach] return the same value, between 0
    and 6 air changes per hour, and exactly 6.0 at 100 %; for a zone
    volume of zero they raise ZeroDivisionError. *)
Theorem ach_val_design_range (pct vol : R) :
  1 / 6 <= vol -> 0 <= pct <= 100 ->
  (exists a, ach_val pct vol None = Ok a /\ ach pct vol = Ok a /\ 0 <= a <= 6) /\
  ach_val 100 vol None = Ok 6 /\
  (forall p max_q, ach_val p 0 max_q = Err ZeroDivisionError).
Proof.
  intros Hvol Hpct.
  assert (Hv : vol <> 0) by lra.
  assert (Hinv : 0 < / vol) by (apply Rinv_0_lt_compat; lra).
  assert (Hinv6 : / vol <= 6).
  { apply (Rmult_le_reg_r vol); [lra |]. rewrite Rinv_l by exact Hv. lra. }
  split; [| split].
  - unfold ach, ach_val. rewrite NumFacts.div_ok by exact Hv. cbn [bind].
    eexists. split; [reflexivity |]. split; [reflexivity |].
    pose proof (fan_m3h_floor pct vol None) as Hfloor.
    assert (Hq : 0 <= fan_m3h pct vol None / vol <= 6).
    { split; [unfold Rdiv; apply Rmult_le_pos; lra |].
      unfold fan_m3h, Rmax.
      destruct (Rle_dec (pct / 100.0 * (vol * 6.0)) 1.0) as [Hle | Hgt].
      - unfold Rdiv at 1. lra.
      - replace 100.0 with 100 by lra. replace 6.0 with 6 by lra.
        replace (pct / 100 * (vol * 6) / vol) with (pct / 100 * 6)
          by (field; exact Hv).
        lra. }
    split.
    + apply Rle_trans with (round2 (IZR 0)); [rewrite round2_int; lra |].
      apply round2_mono. lra.
    + apply Rle_trans with (round2 (IZR 6)); [| rewrite round2_int; lra].
      apply round2_mono. lra.
  - unfold ach_val. rewrite NumFacts.div_ok by exact Hv. cbn [bind]. f_equal.
    unfold fan_m3h. rewrite Rmax_left by lra.
    replace 100.0 with 100 by lra. replace 6.0 with 6 by lra.
    replace (100 / 100 * (vol * 6) / vol) with (IZR 6) by (field; exact Hv).
    apply round2_int.
  - intros p max_q. unfold ach_val. rewrite NumFacts.div_zero. reflexivity.
Qed.

Lemma ach_val_design_range_witness :
  (exists a, ach_val 20 VOL_Z1 None = Ok a /\ ach 20 VOL_Z1 = Ok a /\ 0 <= a <= 6) /\
  ach_val 100 VOL_Z1 None = Ok 6 /\
  (forall p max_q, ach_val p 0 max_q = Err ZeroDivisionError).
Proof.
  apply (ach_val_design_range 20 VOL_Z1).
  - unfold VOL_Z1, Z1_L, Z1_B, Z1_H. lra.
  - lra.
Defined.

(** ** Displays *)

(** Decides every comparison of a reading with a threshold in the goal. *)
Ltac decide_cmp :=
  unfold Num.gtb, Num.ltb, geb;
  repeat match goal with
         | |- context [Rgt_dec ?a ?b] => destruct (Rgt_dec a b)
         | |- context [Rlt_dec ?a ?b] => destruct (Rlt_dec a b)
         | |- context [Rge_dec ?a ?b] => destruct (Rge_dec a b)
         end.

Lemma micro_factor_range (day : R) :
  1 <= day <= 8 -> 1.4 <= micro_factor day <= 2.4.
Proof.
  intros Hd. unfold micro_factor. change (IZR (CO2_DAYS - 1)) with 7. lra.
Qed.

(** X2: from day 1 to day 8 the micro-climate factor rises from 1.4 to
    2.4, and with thresholds that are not negative the micro-climate
    tile, fed with the macro reading times that factor, is red whenever
    the macro tile is red and orange or red whenever the macro tile is
    orange, for both gases. *)
Theorem micro_tiles_at_least_as_severe (g : Globals) (day co2 nh3 : R) :
  1 <= day <= 8 ->
  (0 <= CO2_S2 g)%Z -> (0 <= CO2_S3 g)%Z -> (0 <= NH3_S2 g)%Z -> (0 <= NH3_S3 g)%Z ->
  micro_factor 1 = 1.4 /\ micro_factor 8 = 2.4 /\
  1.4 <= micro_factor day <= 2.4 /\
  (co2c g co2 = "red"%string -> co2mc g (co2 * micro_factor day) = "red"%string) /\
  (co2c g co2 = "ora"%string -> co2mc g (co2 * micro_factor day) <> EmptyString) /\
  (nh3c g nh3 = "red"%string -> nh3mc g (nh3 * micro_factor day) = "red"%string) /\
  (nh3c g nh3 = "ora"%string -> nh3mc g (nh3 * micro_factor day) <> EmptyString).
Proof.
  intros Hd Hc2 Hc3 Hn2 Hn3.
  apply IZR_le in Hc2, Hc3, Hn2, Hn3.
  pose proof (micro_factor_range day Hd) as Hmf.
  split; [unfold micro_factor; change (IZR (CO2_DAYS - 1)) with 7; lra |].
  split; [unfold micro_factor; change (IZR (CO2_DAYS - 1)) with 7; lra |].
  split; [exact Hmf |].
  unfold co2c, co2mc, nh3c, nh3mc.
  repeat split; decide_cmp; intros H; try discriminate H; try reflexivity;
    try (intros Hbad; discriminate Hbad); exfalso; nra.
Qed.

Lemma micro_tiles_at_least_as_severe_witness :
  micro_factor 1 = 1.4 /\ micro_factor 8 = 2.4 /\
  1.4 <= micro_factor 4 <= 2.4 /\
  (co2c default_globals 12000 = "red"%string ->
   co2mc default_globals (12000 * micro_factor 4) = "red"%string) /\
  (co2c default_globals 12000 = "ora"%string ->
   co2mc default_globals (12000 * micro_factor 4) <> EmptyString) /\
  (nh3c default_globals 30 = "red"%string ->
   nh3mc default_globals (30 * micro_factor 4) = "red"%string) /\
  (nh3c default_globals 30 = "ora"%string ->
   nh3mc default_globals (30 * micro_factor 4) <> EmptyString).
Proof.
  apply (micro_tiles_at_least_as_severe default_globals 4 12000 30).
  - lra.
  - cbn. lia.
  - cbn. lia.
  - cbn. lia.
  - cbn. lia.
Defined.

(** The CSS class of a status tuple of [get_stufe]. *)
Lemma get_stufe_cases (g : Globals) (co2 nh3 : R) :
  (get_stufe g co2 nh3 = (3%Z, "ALARM — EVAKUIERUNG"%string, RED, "red"%string) /\
   (co2 > IZR (CO2_S3 g) \/ nh3 > IZR (NH3_S3 g))) \/
  (get_stufe g co2 nh3 = (2%Z, "WARNUNG opt/akust"%string, ORANGE, "ora"%string) /\
   co2 <= IZR (CO2_S3 g) /\ nh3 <= IZR (NH3_S3 g) /\
   (co2 > IZR (CO2_S2 g) \/ nh3 > IZR (NH3_S2 g))) \/
  (get_stufe g co2 nh3 = (1%Z, "BETRIEB STUFE 1"%string, GREEN, "grn"%string) /\
   co2 <= IZR (CO2_S3 g) /\ nh3 <= IZR (NH3_S3 g) /\
   co2 <= IZR (CO2_S2 g) /\ nh3 <= IZR (NH3_S2 g) /\
   (co2 > IZR (CO2_S1 g) \/ nh3 > IZR (NH3_S1 g))) \/
  (get_stufe g co2 nh3 = (0%Z, "STANDBY / ECO"%string, MUTED, EmptyString) /\
   co2 <= IZR (CO2_S3 g) /\ nh3 <= IZR (NH3_S3 g) /\
   co2 <= IZR (CO2_S2 g) /\ nh3 <= IZR (NH3_S2 g) /\
   co2 <= IZR (CO2_S1 g) /\ nh3 <= IZR (NH3_S1 g)).
Proof.
  unfold get_stufe. decide_cmp; cbn [orb];
    first [ left; split; [reflexivity | lra]
          | right; left; split; [reflexivity | lra]
          | right; right; left; split; [reflexivity | lra]
          | right; right; right; split; [reflexivity | lra] ].
Qed.

(** X3: the status tile of a zone is red exactly when one of the two
    gas tiles is red, and orange exactly when none is red and one is
    orange; but the class "grn" changes its meaning: two green gas tiles
    (both readings below stage 1) give a status without class, and a
    green status (stage 1) means that one gas tile has no class. *)
Theorem status_tile_follows_gas_tiles (g : Globals) (co2 nh3 : R) :
  (snd (get_stufe g co2 nh3) = "red"%string <->
   co2c g co2 = "red"%string \/ nh3c g nh3 = "red"%string) /\
  (snd (get_stufe g co2 nh3) = "ora"%string <->
   co2c g co2 <> "red"%string /\ nh3c g nh3 <> "red"%string /\
   (co2c g co2 = "ora"%string \/ nh3c g nh3 = "ora"%string)) /\
  (co2c g co2 = "grn"%string -> nh3c g nh3 = "grn"%string ->
   snd (get_stufe g co2 nh3) = EmptyString) /\
  (snd (get_stufe g co2 nh3) = "grn"%string ->
   co2c g co2 = EmptyString \/ nh3c g nh3 = EmptyString).
Proof.
  destruct (get_stufe_cases g co2 nh3)
    as [[-> H] | [[-> H] | [[-> H] | [-> H]]]];
    cbn [snd]; unfold co2c, nh3c; decide_cmp;
    repeat split; intros; try discriminate; try reflexivity;
    repeat match goal with
           | H : _ /\ _ |- _ => destruct H
           | H : _ \/ _ |- _ => destruct H
           end;
    try discriminate; try congruence; try (exfalso; lra);
    try (left; reflexivity); try (right; reflexivity);
    try (left; congruence); try (right; congruence).
Qed.

(** X4: the stage of [get_stufe] and of [fan_stage] is the worse of the
    two warning levels that the report computes for the gases one by one
    ([co2_warn], [nh3_warn]: green 0, yellow 1, orange 2, red 3). *)
Theorem stage_is_worst_gas (g : Globals) (co2 nh3 : R) :
  stage_nr (get_stufe g co2 nh3) =
    Z.max (warn_level (co2_warn g co2)) (warn_level (nh3_warn g nh3)) /\
  stage_nr (fan_stage g co2 nh3) =
    Z.max (warn_level (co2_warn g co2)) (warn_level (nh3_warn g nh3)).
Proof.
  unfold get_stufe, fan_stage, co2_warn, nh3_warn, stage_nr.
  decide_cmp; cbn; split; try reflexivity; exfalso; lra.
Qed.

(** X5: [status_txt], which compares with [>=], is never less severe
    than [co2_warn] and [nh3_warn], which compare with [>]; they agree on
    every reading that is not itself a threshold, and a reading equal to
    the alarm threshold is ALARM for the one and below red for the
    others. *)
Theorem status_txt_inclusive (g : Globals) (val : R) :
  (warn_level (co2_warn g val) <=
   status_level (status_txt val (CO2_S1 g) (CO2_S2 g) (CO2_S3 g)))%Z /\
  (warn_level (nh3_warn g val) <=
   status_level (status_txt val (NH3_S1 g) (NH3_S2 g) (NH3_S3 g)))%Z /\
  (val <> IZR (CO2_S1 g) -> val <> IZR (CO2_S2 g) -> val <> IZR (CO2_S3 g) ->
   status_level (status_txt val (CO2_S1 g) (CO2_S2 g) (CO2_S3 g)) =
   warn_level (co2_warn g val)) /\
  (val <> IZR (NH3_S1 g) -> val <> IZR (NH3_S2 g) -> val <> IZR (NH3_S3 g) ->
   status_level (status_txt val (NH3_S1 g) (NH3_S2 g) (NH3_S3 g)) =
   warn_level (nh3_warn g val)) /\
  (val = IZR (CO2_S3 g) ->
   status_txt val (CO2_S1 g) (CO2_S2 g) (CO2_S3 g) = "ALARM"%string /\
   co2_warn g val <> "red"%string) /\
  (val = IZR (NH3_S3 g) ->
   status_txt val (NH3_S1 g) (NH3_S2 g) (NH3_S3 g) = "ALARM"%string /\
   nh3_warn g val <> "red"%string).
Proof.
  unfold status_txt, co2_warn, nh3_warn.
  repeat split; decide_cmp; cbn; intros;
    try lia; try reflexivity; try discriminate; exfalso; lra.
Qed.

(** ** The report's copies of the physics *)

(** X6: the concentration of the dashboard is the one of the report
    chart rounded to one decimal: [calc_ppm] is [_ppm] followed by the
    rounding, with the same error on a zero density, so the two never
    differ by more than 0.05 ppm. *)
Theorem calc_ppm_rounds_chart_ppm
  (mass flow vol rho amb day : R) (rate_fn : R -> R) :
  calc_ppm mass (rate_fn day) rho flow vol amb =
    (v <- _ppm mass flow vol rate_fn rho amb day ;; Ok (Num.round1 v)) /\
  _ppm mass flow vol rate_fn 0 amb day = Err ZeroDivisionError /\
  (forall v c,
      _ppm mass flow vol rate_fn rho amb day = Ok v ->
      calc_ppm mass (rate_fn day) rho flow vol amb = Ok c ->
      Rabs (c - v) <= 1 / 20).
Proof.
  assert (Heq : calc_ppm mass (rate_fn day) rho flow vol amb =
                (v <- _ppm mass flow vol rate_fn rho amb day ;; Ok (Num.round1 v))).
  { unfold calc_ppm, _ppm, fan_m3h.
    replace (flow / 100.0 * (vol * 6.0)) with (flow / 100.0 * vol * 6.0) by lra.
    destruct (Num.div (mass * rate_fn day / 1000.0) rho) as [e | err]; cbn [bind];
      [| reflexivity].
    destruct (Num.div e (Rmax (flow / 100.0 * vol * 6.0) 1.0)); reflexivity. }
  split; [exact Heq |]. split.
  - unfold _ppm. rewrite NumFacts.div_zero. reflexivity.
  - intros v c Hv Hc. rewrite Heq, Hv in Hc. cbn [bind] in Hc.
    injection Hc as <-. pose proof (NumFacts.round1_near v).
    apply Rabs_le. lra.
Qed.

(** X7: the report's [_nh3_rate] computes the NH3 rate of the dashboard
    for every base rate except zero: an explicit base rate of 0.0 counts
    as missing there and is replaced by the configured one, while
    [nh3_rate_g_kg_h] returns a rate of 0. *)
Theorem report_nh3_rate_zero_base (g : Globals) (day : R) :
  _nh3_rate g day None = nh3_rate_g_kg_h g day None /\
  (forall b, b <> 0 -> _nh3_rate g day (Some b) = nh3_rate_g_kg_h g day (Some b)) /\
  nh3_rate_g_kg_h g day (Some 0) = 0 /\
  _nh3_rate g day (Some 0) = nh3_rate_g_kg_h g day None.
Proof.
  assert (Hsame : forall b ba,
            (match b with
             | Some b => if Req_dec_T b 0 then NH3_RATE_BASE g else b
             | None => NH3_RATE_BASE g
             end) = ba ->
            _nh3_rate g day b = nh3_rate_g_kg_h g day (Some ba)).
  { intros b ba Hb. unfold _nh3_rate, nh3_rate_g_kg_h. rewrite Hb.
    change (IZR CO2_DAYS) with 8. replace 8.0 with 8 by lra.
    unfold nh3_linear_branch, nh3_exp_branch. reflexivity. }
  split; [apply Hsame; reflexivity |]. split; [| split].
  - intros b Hb. apply Hsame. destruct (Req_dec_T b 0); [contradiction | reflexivity].
  - unfold nh3_rate_g_kg_h, nh3_linear_branch, nh3_exp_branch.
    destruct (Num.ltb (day / IZR CO2_DAYS) 0.45); lra.
  - apply Hsame. destruct (Req_dec_T 0 0) as [_ | H]; [reflexivity | now elim H].
Qed.

(** ** Sessions over many runs *)

Lemma hist_append_length_exact {A : Type} (lst : list A) (val : A) :
  length (hist_append lst val) = Nat.min 200 (length lst + 1).
Proof.
  rewrite hist_append_slice, slice_last_length, length_app. reflexivity.
Qed.

Lemma hist_append_full {A : Type} (lst : list A) (val : A) :
  length lst = 200%nat -> hist_append lst val = skipn 1 lst ++ [val].
Proof.
  intros Hlen. rewrite hist_append_slice. unfold slice_last.
  rewrite length_app, Hlen. cbn [length Nat.add Nat.sub].
  change (200 + 1 - 200)%nat with 1%nat.
  rewrite skipn_app, Hlen. reflexivity.
Qed.

(** A run that appends to all six series keeps them aligned. *)
Lemma appends_keep_aligned (s s' : SessionState) (t c1 n1 c2 n2 f : R) :
  series_aligned s ->
  hist_t s' = hist_append (hist_t s) t ->
  hist_co2_z1 s' = hist_append (hist_co2_z1 s) c1 ->
  hist_nh3_z1 s' = hist_append (hist_nh3_z1 s) n1 ->
  hist_co2_z2 s' = hist_append (hist_co2_z2 s) c2 ->
  hist_nh3_z2 s' = hist_append (hist_nh3_z2 s) n2 ->
  hist_flow_z1 s' = hist_append (hist_flow_z1 s) f ->
  series_aligned s' /\
  length (hist_t s') = Nat.min 200 (length (hist_t s) + 1).
Proof.
  intros (Hlen & H1 & H2 & H3 & H4 & H5) Et Ec1 En1 Ec2 En2 Ef.
  unfold series_aligned. rewrite Et, Ec1, En1, Ec2, En2, Ef.
  rewrite !hist_append_length_exact, H1, H2, H3, H4, H5.
  repeat split; lia.
Qed.

(** With a step counter that is not negative the tick returns, and
    this is what it returns. *)
Lemma autopilot_tick_defined (g0 : Globals) (inp : Inputs) (s : SessionState) :
  (0 <= sim_step s)%Z ->
  exists c1 n1 c2 n2 co2_1 nh3_1 co2_2 nh3_2,
    macro_nh3 (session_globals g0 s) (mass_z1 inp * 1000) 0 VOL_Z1
      (Rmin 8.0 (1.0 + IZR (sim_step s + 1) * (7.0 / 120.0))) None = Ok n1 /\
    autopilot_tick g0 inp s =
    Ok (mkSession (sim_active s) (sim_step s + 1)
          (Rmin 8.0 (1.0 + IZR (sim_step s + 1) * (7.0 / 120.0)))
          (autopilot_flow (session_globals g0 s) c1 n1
             (Rmin 8.0 (1.0 + IZR (sim_step s + 1) * (7.0 / 120.0))) 28.0)
          (autopilot_flow (session_globals g0 s) c2 n2
             (Rmin 8.0 (1.0 + IZR (sim_step s + 1) * (7.0 / 120.0))) 22.0)
          (hist_append (hist_t s) (IZR (sim_step s + 1) * 0.25 / 60.0))
          (hist_append (hist_co2_z1 s) co2_1)
          (hist_append (hist_nh3_z1 s) nh3_1)
          (hist_append (hist_co2_z2 s) co2_2)
          (hist_append (hist_nh3_z2 s) nh3_2)
          (hist_append (hist_flow_z1 s)
             (autopilot_flow (session_globals g0 s) c1 n1
                (Rmin 8.0 (1.0 + IZR (sim_step s + 1) * (7.0 / 120.0))) 28.0))
          (co2_rate_avg s) (nh3_rate_base s),
        mkReadings
          (Rmin 8.0 (1.0 + IZR (sim_step s + 1) * (7.0 / 120.0)))
          (autopilot_flow (session_globals g0 s) c1 n1
             (Rmin 8.0 (1.0 + IZR (sim_step s + 1) * (7.0 / 120.0))) 28.0)
          (autopilot_flow (session_globals g0 s) c2 n2
             (Rmin 8.0 (1.0 + IZR (sim_step s + 1) * (7.0 / 120.0))) 22.0)
          co2_1 nh3_1 co2_2 nh3_2).
Proof.
  intros Hstep.
  set (g := session_globals g0 s).
  set (step := (sim_step s + 1)%Z).
  set (day := Rmin 8.0 (1.0 + IZR step * (7.0 / 120.0))).
  assert (Hrange : 0 <= day <= 8).
  { pose proof (tick_day_range step ltac:(unfold step; lia)). fold day in H. lra. }
  destruct (macro_co2_total g (mass_z1 inp * 1000) 0 VOL_Z1 day Hrange) as [c1 H1].
  pose proof (macro_nh3_value g (mass_z1 inp * 1000) 0 VOL_Z1 day) as H2.
  destruct (macro_co2_total g (mass_z2 inp * 1000) 0 VOL_Z2 day Hrange) as [c2 H3].
  pose proof (macro_nh3_value g (mass_z2 inp * 1000) 0 VOL_Z2 day) as H4.
  set (n1 := Num.round1 _) in H2. set (n2 := Num.round1 _) in H4.
  set (f1 := autopilot_flow g c1 n1 day 28.0).
  set (f2 := autopilot_flow g c2 n2 day 22.0).
  destruct (macro_co2_total g (mass_z1 inp * 1000) f1 VOL_Z1 day Hrange) as [co2_1 H5].
  pose proof (macro_nh3_value g (mass_z1 inp * 1000) f1 VOL_Z1 day) as H6.
  destruct (macro_co2_total g (mass_z2 inp * 1000) f2 VOL_Z2 day Hrange) as [co2_2 H7].
  pose proof (macro_nh3_value g (mass_z2 inp * 1000) f2 VOL_Z2 day) as H8.
  set (nh3_1 := Num.round1 _) in H6. set (nh3_2 := Num.round1 _) in H8.
  exists c1, n1, c2, n2, co2_1, nh3_1, co2_2, nh3_2.
  split; [exact H2 |].
  exact (autopilot_tick_result g0 inp s c1 n1 c2 n2 co2_1 nh3_1 co2_2 nh3_2
           H1 H2 H3 H4 H5 H6 H7 H8).
Qed.

(** One run of the active session, with what the loop needs of it. *)
Lemma active_run_step (g0 : Globals) (inp : Inputs) (s : SessionState) :
  sim_active s = true -> day_follows_step s -> series_aligned s ->
  exists s' rd,
    simulation g0 inp s = Ok (s', rd) /\
    sim_active s' = true /\
    sim_step s' = (sim_step s + 1)%Z /\
    day_follows_step s' /\
    series_aligned s' /\
    length (hist_t s') = Nat.min 200 (length (hist_t s) + 1) /\
    co2_rate_avg s' = co2_rate_avg s /\
    nh3_rate_base s' = nh3_rate_base s.
Proof.
  intros Hact [Hstep Hday] Halign.
  destruct (autopilot_tick_defined g0 inp s Hstep)
    as (c1 & n1 & c2 & n2 & co2_1 & nh3_1 & co2_2 & nh3_2 & _ & Htick).
  eexists _, _. split; [unfold simulation; rewrite Hact; exact Htick |].
  cbn [sim_active sim_step co2_rate_avg nh3_rate_base].
  split; [exact Hact |]. split; [reflexivity |].
  split; [split; [cbn [sim_step]; lia | reflexivity] |].
  match goal with
  | |- series_aligned ?s' /\ _ /\ _ /\ _ =>
      destruct (appends_keep_aligned s s' _ _ _ _ _ _ Halign
                  eq_refl eq_refl eq_refl eq_refl eq_refl eq_refl) as [Ha Hl]
  end.
  split; [exact Ha |]. split; [exact Hl |]. split; reflexivity.
Qed.

(** X8: left alone, the autopilot never stops.  After any number [n]
    of runs the session is still active, the step counter has advanced by
    [n], the day is [min(8, 1 + step * 7/120)], which is 8.0 from step
    120 on, and the time series holds [min(200, old length + n)]
    entries, aligned with the other five. *)
Theorem autopilot_loop_saturates
  (g0 : Globals) (inp : Inputs) (n : nat) (s : SessionState) :
  sim_active s = true -> day_follows_step s -> series_aligned s ->
  exists s',
    autopilot_loop g0 inp n s = Ok s' /\
    sim_active s' = true /\
    sim_step s' = (sim_step s + Z.of_nat n)%Z /\
    mast_day s' = Rmin 8.0 (1.0 + IZR (sim_step s + Z.of_nat n) * (7.0 / 120.0)) /\
    1 <= mast_day s' <= 8 /\
    ((120 <= sim_step s + Z.of_nat n)%Z -> mast_day s' = 8.0) /\
    length (hist_t s') = Nat.min 200 (length (hist_t s) + n) /\
    series_aligned s'.
Proof.
  revert s. induction n as [| n IH]; intros s Hact Hinv Halign.
  - exists s. cbn [autopilot_loop]. destruct Hinv as [Hstep Hday].
    rewrite Z.add_0_r, Nat.add_0_r.
    split; [reflexivity |]. split; [exact Hact |]. split; [reflexivity |].
    split; [exact Hday |].
    split; [rewrite Hday; apply tick_day_range; exact Hstep |].
    split.
    + intros H120. rewrite Hday. apply IZR_le in H120. apply Rmin_left. lra.
    + split; [| exact Halign]. destruct Halign as [Hlen _]. lia.
  - destruct (active_run_step g0 inp s Hact Hinv Halign)
      as (s1 & rd & Hrun & Hact1 & Hstep1 & Hinv1 & Halign1 & Hlen1 & _).
    destruct (IH s1 Hact1 Hinv1 Halign1)
      as (s' & Hloop & Ha & Hs & Hd & Hr & H8 & Hl & Hal).
    exists s'. cbn [autopilot_loop]. rewrite Hrun. cbn [bind fst].
    rewrite Hstep1 in Hs, Hd, H8.
    replace (sim_step s + 1 + Z.of_nat n)%Z
      with (sim_step s + Z.of_nat (S n))%Z in Hs, Hd, H8 by lia.
    repeat (split; [assumption |]).
    split; [| exact Hal]. rewrite Hl, Hlen1. lia.
Qed.

Lemma autopilot_loop_saturates_witness :
  exists s',
    autopilot_loop default_globals default_inputs 250 started_session = Ok s' /\
    sim_active s' = true /\
    sim_step s' = 250%Z /\
    mast_day s' = 8.0 /\
    length (hist_t s') = 200%nat.
Proof.
  assert (Hact : sim_active started_session = true) by reflexivity.
  assert (Hinv : day_follows_step started_session).
  { split; [cbn; lia |]. cbn. rewrite Rmin_right by lra. lra. }
  assert (Halign : series_aligned started_session).
  { unfold series_aligned. cbn. lia. }
  destruct (autopilot_loop_saturates default_globals default_inputs 250
              started_session Hact Hinv Halign)
    as (s' & Hloop & Ha & Hs & _ & _ & H8 & Hl & _).
  exists s'. split; [exact Hloop |]. split; [exact Ha |].
  split; [exact Hs |]. split; [apply H8; cbn; lia | exact Hl].
Defined.

Lemma Ok_inj {A : Type} (a b : A) : Ok a = Ok b -> a = b.
Proof. intros H. now injection H. Qed.

(** The NH3 rate is at least the base rate from day 0 on. *)
Lemma nh3_rate_at_least_base (g : Globals) (day b : R) :
  0 <= day -> 0 <= b -> b <= nh3_rate_g_kg_h g day (Some b).
Proof.
  intros Hd Hb. rewrite nh3_rate_unfold.
  destruct (Num.ltb (day / 8) 0.45) eqn:E.
  - unfold nh3_linear_branch. nra.
  - apply NumFacts.ltb_false_iff in E. unfold nh3_exp_branch.
    assert (He : 1 <= exp (2.6 * (day / 8 - 0.45))).
    { rewrite <- exp_0.
      destruct (Req_dec (2.6 * (day / 8 - 0.45)) 0) as [-> | Hnz]; [lra |].
      left. apply exp_increasing. lra. }
    nra.
Qed.

(** X9: with the sidebar in its ranges (5 to 60 t in zone 01, NH3
    alarm threshold up to 200 ppm, NH3 base rate from 0.0001 g/kg/h) every
    tick of the autopilot sets the fan of zone 01 to 100 %: the NH3
    concentration it stages from is the one at airflow 0, above 650 ppm,
    so the base flow and the stages of 40 % and 70 % are never chosen. *)
Theorem autopilot_zone1_always_full
  (g0 : Globals) (inp : Inputs) (s : SessionState) :
  sim_active s = true -> (0 <= sim_step s)%Z -> widgets_in_range g0 inp s ->
  exists s' rd,
    simulation g0 inp s = Ok (s', rd) /\
    flow_z1 s' = 100.0 /\
    r_flow_z1 rd = 100.0 /\
    hist_flow_z1 s' = hist_append (hist_flow_z1 s) 100.0.
Proof.
  intros Hact Hstep (Hmass & Hthr & Hbase).
  destruct (autopilot_tick_defined g0 inp s Hstep)
    as (c1 & n1 & c2 & n2 & co2_1 & nh3_1 & co2_2 & nh3_2 & Hn1 & Htick).
  set (g := session_globals g0 s) in *.
  set (day := Rmin 8.0 (1.0 + IZR (sim_step s + 1) * (7.0 / 120.0))) in *.
  assert (Hday : 1 <= day <= 8) by (apply tick_day_range; lia).
  assert (Hfull : autopilot_flow g c1 n1 day 28.0 = 100.0).
  { rewrite macro_nh3_value in Hn1. apply Ok_inj in Hn1.
    pose proof (NumFacts.round1_near
      (0.02 + mass_z1 inp * 1000 * nh3_rate_g_kg_h g day (Some (NH3_RATE_BASE g))
              / 1000 / RHO_NH3 / fan_m3h 0 VOL_Z1 None * 1e6)) as Hnear.
    rewrite Hn1, fan_m3h_zero in Hnear.
    pose proof (nh3_rate_at_least_base g day (NH3_RATE_BASE g)
                  ltac:(lra) ltac:(lra)) as Hrate.
    set (rate := nh3_rate_g_kg_h g day (Some (NH3_RATE_BASE g))) in *.
    assert (Hprod : 0.5 <= mass_z1 inp * 1000 * rate) by nra.
    assert (Hthr' : IZR (NH3_S3 g) <= 200) by (apply IZR_le in Hthr; exact Hthr).
    assert (Hgt : Num.gtb n1 (IZR (NH3_S3 g)) = true).
    { apply NumFacts.gtb_true_iff. unfold RHO_NH3 in Hnear. lra. }
    unfold autopilot_flow. rewrite Hgt, orb_true_r. reflexivity. }
  rewrite Hfull in Htick.
  eexists _, _. split; [unfold simulation; rewrite Hact; exact Htick |].
  cbn [flow_z1 r_flow_z1 hist_flow_z1]. repeat split.
Qed.

Lemma autopilot_zone1_always_full_witness :
  exists s' rd,
    simulation default_globals default_inputs started_session = Ok (s', rd) /\
    flow_z1 s' = 100.0 /\
    r_flow_z1 rd = 100.0 /\
    hist_flow_z1 s' = hist_append (hist_flow_z1 started_session) 100.0.
Proof.
  apply (autopilot_zone1_always_full default_globals default_inputs started_session).
  - reflexivity.
  - cbn. lia.
  - unfold widgets_in_range. cbn. repeat split; try lra; lia.
Defined.

(** The manual branch, once its four concentrations are known. *)
Lemma manual_sample_defined (g0 : Globals) (inp : Inputs) (s : SessionState) :
  0 <= in_mast_day inp <= 8 ->
  exists co2_1 nh3_1 co2_2 nh3_2,
    manual_sample g0 inp s =
    Ok (mkSession (sim_active s) (sim_step s) (mast_day s) (flow_z1 s) (flow_z2 s)
          (hist_append (hist_t s) (INR (length (hist_t s)) * 0.25 / 60.0))
          (hist_append (hist_co2_z1 s) co2_1)
          (hist_append (hist_nh3_z1 s) nh3_1)
          (hist_append (hist_co2_z2 s) co2_2)
          (hist_append (hist_nh3_z2 s) nh3_2)
          (hist_append (hist_flow_z1 s) (flow_z1_manual inp))
          (co2_rate_avg s) (nh3_rate_base s),
        mkReadings (in_mast_day inp) (flow_z1_manual inp) (flow_z2_manual inp)
          co2_1 nh3_1 co2_2 nh3_2).
Proof.
  intros Hday. set (g := session_globals g0 s).
  destruct (macro_co2_total g (mass_z1 inp * 1000) (flow_z1_manual inp) VOL_Z1
              (in_mast_day inp) Hday) as [co2_1 H1].
  pose proof (macro_nh3_value g (mass_z1 inp * 1000) (flow_z1_manual inp) VOL_Z1
                (in_mast_day inp)) as H2.
  destruct (macro_co2_total g (mass_z2 inp * 1000) (flow_z2_manual inp) VOL_Z2
              (in_mast_day inp) Hday) as [co2_2 H3].
  pose proof (macro_nh3_value g (mass_z2 inp * 1000) (flow_z2_manual inp) VOL_Z2
                (in_mast_day inp)) as H4.
  set (nh3_1 := Num.round1 _) in H2. set (nh3_2 := Num.round1 _) in H4.
  exists co2_1, nh3_1, co2_2, nh3_2.
  unfold manual_sample. fold g.
  rewrite H1. cbn [bind]. rewrite H2. cbn [bind].
  rewrite H3. cbn [bind]. rewrite H4. cbn [bind].
  reflexivity.
Qed.

(** X10: in manual mode a run of the script leaves step, day, flows
    and activity flag alone and stamps its sample with the length of the
    time series; so once that series holds 200 entries every further
    sample gets the same time, 200 * 0.25 / 60 h, and the time axis of the
    history stops advancing. *)
Theorem manual_time_stalls (g0 : Globals) (inp : Inputs) (s : SessionState) :
  sim_active s = false -> 0 <= in_mast_day inp <= 8 ->
  length (hist_t s) = 200%nat ->
  exists s' rd,
    simulation g0 inp s = Ok (s', rd) /\
    hist_t s' = skipn 1 (hist_t s) ++ [200 * 0.25 / 60.0] /\
    length (hist_t s') = 200%nat /\
    sim_active s' = false /\
    sim_step s' = sim_step s /\
    mast_day s' = mast_day s /\
    flow_z1 s' = flow_z1 s /\
    flow_z2 s' = flow_z2 s.
Proof.
  intros Hact Hday Hlen.
  destruct (manual_sample_defined g0 inp s Hday)
    as (co2_1 & nh3_1 & co2_2 & nh3_2 & Hrun).
  eexists _, _. split; [unfold simulation; rewrite Hact; exact Hrun |].
  cbn [hist_t sim_active sim_step mast_day flow_z1 flow_z2].
  rewrite Hlen, hist_append_full by exact Hlen.
  split.
  - rewrite INR_IZR_INZ. reflexivity.
  - split; [| repeat split; assumption].
    rewrite length_app, length_skipn, Hlen. reflexivity.
Qed.

Lemma manual_time_stalls_witness :
  exists s' rd,
    simulation default_globals default_inputs
      (mkSession false 0 1.0 30.0 25.0 (repeat 0 200) (repeat 420.0 200)
         (repeat 0.2 200) (repeat 420.0 200) (repeat 0.2 200) (repeat 30.0 200)
         (Some 0.125) (Some 0.001)) = Ok (s', rd) /\
    hist_t s' = skipn 1 (repeat 0 200) ++ [200 * 0.25 / 60.0] /\
    length (hist_t s') = 200%nat.
Proof.
  destruct (manual_time_stalls default_globals default_inputs
              (mkSession false 0 1.0 30.0 25.0 (repeat 0 200) (repeat 420.0 200)
                 (repeat 0.2 200) (repeat 420.0 200) (repeat 0.2 200)
                 (repeat 30.0 200) (Some 0.125) (Some 0.001)))
    as (s' & rd & Hrun & Ht & Hl & _).
  - reflexivity.
  - cbn. lra.
  - cbn [hist_t]. apply repeat_length.
  - exists s', rd. split; [exact Hrun |]. split; [exact Ht | exact Hl].
Defined.

(** X11: the six history series always have one common length
    between 1 and 200: RESET and START set it to 1, STOP keeps it, and so
    does every run of the simulation block, in either branch; hence the
    charts never fall back to their stand-in for an empty series. *)
Theorem history_series_stay_aligned :
  (forall s, series_aligned (reset s)) /\
  (forall s, series_aligned (start s)) /\
  (forall s, series_aligned s -> series_aligned (stop s)) /\
  (forall g0 inp s s' rd,
      series_aligned s -> simulation g0 inp s = Ok (s', rd) -> series_aligned s') /\
  (forall s alt,
      series_aligned s ->
      or_list (hist_t s) alt = hist_t s /\
      or_list (hist_co2_z1 s) alt = hist_co2_z1 s /\
      or_list (hist_nh3_z1 s) alt = hist_nh3_z1 s /\
      or_list (hist_co2_z2 s) alt = hist_co2_z2 s /\
      or_list (hist_nh3_z2 s) alt = hist_nh3_z2 s /\
      or_list (hist_flow_z1 s) alt = hist_flow_z1 s).
Proof.
  split; [| split; [| split; [| split]]].
  - intros s. unfold series_aligned. cbn. lia.
  - intros s. unfold series_aligned. cbn. lia.
  - intros s H. exact H.
  - intros g0 inp s s' rd Halign Hrun.
    destruct (simulation_appends g0 inp s s' rd Hrun)
      as ([t_val Ht] & Hc1 & Hn1 & Hc2 & Hn2 & Hf).
    exact (proj1 (appends_keep_aligned s s' _ _ _ _ _ _ Halign Ht Hc1 Hn1 Hc2 Hn2 Hf)).
  - intros s alt (Hlen & H1 & H2 & H3 & H4 & H5).
    assert (Hne : forall l : list R, (1 <= length l)%nat -> or_list l alt = l).
    { intros [| x l] Hl; [cbn in Hl; lia | reflexivity]. }
    repeat split; apply Hne; lia.
Qed.

(** STOP pressed right after START leaves exactly the state that
    RESET leaves; START and RESET overwrite each other and whatever STOP
    did; and STOP itself changes nothing but the activity flag, twice as
    once. *)
Lemma handlers_compose (s : SessionState) :
  stop (start s) = reset s /\
  start (reset s) = start s /\
  reset (start s) = reset s /\
  start (stop s) = start s /\
  reset (stop s) = reset s /\
  stop (stop s) = stop s /\
  stop s =
    mkSession false (sim_step s) (mast_day s) (flow_z1 s) (flow_z2 s)
      (hist_t s) (hist_co2_z1 s) (hist_nh3_z1 s) (hist_co2_z2 s)
      (hist_nh3_z2 s) (hist_flow_z1 s) (co2_rate_avg s) (nh3_rate_base s).
Proof. repeat split. Qed.

(** ** Airflow shown and airflow used *)

(** X12: from 1 % on, the airflow that the sidebar shows for a fan
    percentage is measured against the 60000 m3/h of the fan layout,
    600 m3/h per percent in both zones, while the airflow that
    [calc_ppm] dilutes with is measured against six air changes per
    hour: 47.481057 m3/h per percent in zone 01 and 2.51256 in zone 02,
    less than a twelfth and less than a 238th of what is shown. *)
Theorem shown_airflow_exceeds_used (pct : R) :
  1 <= pct ->
  fan_m3h pct VOL_Z1 (Some FAN_Z1_MAX_M3H) = 600 * pct /\
  fan_m3h_z2 pct = 600 * pct /\
  fan_m3h pct VOL_Z1 None = 47.481057 * pct /\
  fan_m3h pct VOL_Z2 None = 2.51256 * pct /\
  12 * fan_m3h pct VOL_Z1 None < fan_m3h pct VOL_Z1 (Some FAN_Z1_MAX_M3H) /\
  238 * fan_m3h pct VOL_Z2 None < fan_m3h_z2 pct.
Proof.
  intros Hpct.
  assert (H1 : fan_m3h pct VOL_Z1 (Some FAN_Z1_MAX_M3H) = 600 * pct).
  { unfold fan_m3h, FAN_Z1_MAX_M3H. rewrite Rmax_left; lra. }
  assert (H2 : fan_m3h_z2 pct = 600 * pct).
  { unfold fan_m3h_z2, fan_m3h, FAN_Z2_MAX_M3H. rewrite Rmax_left; lra. }
  assert (H3 : fan_m3h pct VOL_Z1 None = 47.481057 * pct).
  { unfold fan_m3h, VOL_Z1, Z1_L, Z1_B, Z1_H. rewrite Rmax_left; lra. }
  assert (H4 : fan_m3h pct VOL_Z2 None = 2.51256 * pct).
  { unfold fan_m3h, VOL_Z2, Z2_L, Z2_B, Z2_H. rewrite Rmax_left; lra. }
  rewrite H1, H2, H3, H4. repeat split; lra.
Qed.

Lemma shown_airflow_exceeds_used_witness :
  fan_m3h 100 VOL_Z1 (Some FAN_Z1_MAX_M3H) = 600 * 100 /\
  fan_m3h_z2 100 = 600 * 100 /\
  fan_m3h 100 VOL_Z1 None = 47.481057 * 100 /\
  fan_m3h 100 VOL_Z2 None = 2.51256 * 100 /\
  12 * fan_m3h 100 VOL_Z1 None < fan_m3h 100 VOL_Z1 (Some FAN_Z1_MAX_M3H) /\
  238 * fan_m3h 100 VOL_Z2 None < fan_m3h_z2 100.
Proof.
  apply (shown_airflow_exceeds_used 100). lra.
Defined.

(** ** Shape of the emission curves *)

(** X13: for a base rate that is not negative the NH3 rate never falls
    as the day advances, and from day 0 to day 8 it stays between the
    base rate and 8 times the base rate. *)
Theorem nh3_rate_rises (g : Globals) (b : R) :
  0 <= b ->
  (forall d1 d2, d1 <= d2 ->
     nh3_rate_g_kg_h g d1 (Some b) <= nh3_rate_g_kg_h g d2 (Some b)) /\
  (forall day, 0 <= day <= 8 ->
     b <= nh3_rate_g_kg_h g day (Some b) <= 8 * b).
Proof.
  intros Hb.
  assert (Hmono : forall d1 d2, d1 <= d2 ->
            nh3_rate_g_kg_h g d1 (Some b) <= nh3_rate_g_kg_h g d2 (Some b)).
  { intros d1 d2 Hd. rewrite !nh3_rate_unfold.
    destruct (Num.ltb (d1 / 8) 0.45) eqn:E1; destruct (Num.ltb (d2 / 8) 0.45) eqn:E2;
      try apply NumFacts.ltb_true_iff in E1; try apply NumFacts.ltb_false_iff in E1;
      try apply NumFacts.ltb_true_iff in E2; try apply NumFacts.ltb_false_iff in E2;
      unfold nh3_linear_branch, nh3_exp_branch.
    - nra.
    - assert (He : 1 <= exp (2.6 * (d2 / 8 - 0.45))).
      { rewrite <- exp_0.
        destruct (Req_dec (2.6 * (d2 / 8 - 0.45)) 0) as [-> | Hnz]; [lra |].
        left. apply exp_increasing. lra. }
      nra.
    - lra.
    - assert (He : exp (2.6 * (d1 / 8 - 0.45)) <= exp (2.6 * (d2 / 8 - 0.45))).
      { destruct (Req_dec d1 d2) as [-> | Hne]; [lra |].
        left. apply exp_increasing. lra. }
      nra. }
  split; [exact Hmono |].
  intros day Hday. split; [apply nh3_rate_at_least_base; lra |].
  apply Rle_trans with (nh3_rate_g_kg_h g 8 (Some b)); [apply Hmono; lra |].
  rewrite nh3_rate_unfold.
  destruct (Num.ltb (8 / 8) 0.45) eqn:E;
    [apply NumFacts.ltb_true_iff in E; lra |].
  unfold nh3_exp_branch.
  assert (Hhalf : exp (1 / 2) <= 1.74).
  { pose proof (exp_pos (1 / 2)) as Hpos. pose proof exp_le_3 as H3.
    replace 1 with (1 / 2 + 1 / 2) in H3 at 1 by lra. rewrite exp_plus in H3.
    nra. }
  assert (Hexp : exp (2.6 * (8 / 8 - 0.45)) <= 5.22).
  { apply Rle_trans with (exp (1 + 1 / 2)).
    - left. apply exp_increasing. lra.
    - rewrite exp_plus. pose proof exp_le_3. pose proof (exp_pos 1).
      pose proof (exp_pos (1 / 2)). nra. }
  nra.
Qed.

Lemma nh3_rate_rises_witness :
  (forall d1 d2, d1 <= d2 ->
     nh3_rate_g_kg_h default_globals d1 (Some 0.001)
     <= nh3_rate_g_kg_h default_globals d2 (Some 0.001)) /\
  (forall day, 0 <= day <= 8 ->
     0.001 <= nh3_rate_g_kg_h default_globals day (Some 0.001) <= 8 * 0.001).
Proof.
  apply (nh3_rate_rises default_globals 0.001). lra.
Defined.

Lemma pow_1_8_mono (a b : R) :
  0 <= a <= b ->
  exists pa pb, Num.pow_1_8 a = Ok pa /\ Num.pow_1_8 b = Ok pb /\ 0 <= pa <= pb.
Proof.
  intros [Ha Hab].
  destruct (Rle_lt_or_eq_dec 0 a Ha) as [Hpos | <-].
  - exists (Rpower a 1.8), (Rpower b 1.8).
    rewrite !NumFacts.pow_1_8_pos by lra.
    split; [reflexivity |]. split; [reflexivity |]. split.
    + left. unfold Rpower. apply exp_pos.
    + apply Rle_Rpower_l; lra.
  - destruct (Rle_lt_or_eq_dec 0 b Hab) as [Hpos | <-].
    + exists 0, (Rpower b 1.8).
      rewrite NumFacts.pow_1_8_zero, NumFacts.pow_1_8_pos by lra.
      split; [reflexivity |]. split; [reflexivity |]. split; [lra |].
      left. unfold Rpower. apply exp_pos.
    + exists 0, 0. rewrite NumFacts.pow_1_8_zero. repeat split; lra.
Qed.

(** X14: for a base rate that is not negative the CO2 rate is a bell
    over the cycle: it is the same [t] days before and after day 4, it
    never falls from day 0 to day 4 and never rises from day 4 to day 8,
    and between day 0 and day 8 it lies between 0.3 times the base rate
    and its value on day 4. *)
Theorem co2_rate_bell (g : Globals) (r : R) :
  0 <= r ->
  (forall day,
     co2_rate_g_kg_h g (8 - day) (Some r) = co2_rate_g_kg_h g day (Some r)) /\
  (forall d1 d2, 0 <= d1 -> d1 <= d2 -> d2 <= 4 ->
     ppm_le (co2_rate_g_kg_h g d1 (Some r)) (co2_rate_g_kg_h g d2 (Some r))) /\
  (forall d1 d2, 4 <= d1 -> d1 <= d2 -> d2 <= 8 ->
     ppm_le (co2_rate_g_kg_h g d2 (Some r)) (co2_rate_g_kg_h g d1 (Some r))) /\
  (forall day, 0 <= day <= 8 ->
     ppm_le (Ok (0.3 * r)) (co2_rate_g_kg_h g day (Some r)) /\
     ppm_le (co2_rate_g_kg_h g day (Some r)) (co2_rate_g_kg_h g 4 (Some r))).
Proof.
  intros Hr. pose proof PI_RGT_0 as Hpi.
  assert (Hsym : forall day,
            co2_rate_g_kg_h g (8 - day) (Some r) = co2_rate_g_kg_h g day (Some r)).
  { intros day. rewrite !co2_rate_unfold.
    replace (PI * ((8 - day) / 8)) with (PI - PI * (day / 8)) by lra.
    now rewrite sin_PI_x. }
  assert (Hup : forall d1 d2, 0 <= d1 -> d1 <= d2 -> d2 <= 4 ->
            ppm_le (co2_rate_g_kg_h g d1 (Some r)) (co2_rate_g_kg_h g d2 (Some r))).
  { intros d1 d2 H0 H12 H4. rewrite !co2_rate_unfold.
    assert (Hs : 0 <= sin (PI * (d1 / 8)) <= sin (PI * (d2 / 8))).
    { split; [apply sin_ge_0; nra |]. apply sin_incr_1; nra. }
    destruct (pow_1_8_mono _ _ Hs) as (pa & pb & -> & -> & Hp).
    cbn. nra. }
  split; [exact Hsym |]. split; [exact Hup |]. split.
  - intros d1 d2 H4 H12 H8.
    rewrite <- (Hsym d2), <- (Hsym d1). apply Hup; lra.
  - intros day Hday. destruct (co2_rate_defined g day r Hday Hr) as (v & Hv & Hb).
    split; [rewrite Hv; cbn; lra |].
    destruct (Rle_dec day 4) as [Hle | Hgt].
    + apply Hup; lra.
    + rewrite <- (Hsym day). apply Hup; lra.
Qed.

Lemma co2_rate_bell_witness :
  (forall day,
     co2_rate_g_kg_h default_globals (8 - day) (Some 0.125)
     = co2_rate_g_kg_h default_globals day (Some 0.125)) /\
  (forall d1 d2, 0 <= d1 -> d1 <= d2 -> d2 <= 4 ->
     ppm_le (co2_rate_g_kg_h default_globals d1 (Some 0.125))
            (co2_rate_g_kg_h default_globals d2 (Some 0.125))) /\
  (forall d1 d2, 4 <= d1 -> d1 <= d2 -> d2 <= 8 ->
     ppm_le (co2_rate_g_kg_h default_globals d2 (Some 0.125))
            (co2_rate_g_kg_h default_globals d1 (Some 0.125))) /\
  (forall day, 0 <= day <= 8 ->
     ppm_le (Ok (0.3 * 0.125)) (co2_rate_g_kg_h default_globals day (Some 0.125)) /\
     ppm_le (co2_rate_g_kg_h default_globals day (Some 0.125))
            (co2_rate_g_kg_h default_globals 4 (Some 0.125))).
Proof.
  apply (co2_rate_bell default_globals 0.125). lra.
Defined.

(** ** Colours *)

Lemma hex_val_range (c : ascii) (v : Z) : hex_val c = Some v -> (0 <= v <= 15)%Z.
Proof.
  unfold hex_val. set (n := Z.of_N (N_of_ascii c)).
  destruct ((48 <=? n)%Z && (n <=? 57)%Z) eqn:E1.
  { intros H. injection H as <-. apply andb_prop in E1. lia. }
  destruct ((97 <=? n)%Z && (n <=? 102)%Z) eqn:E2.
  { intros H. injection H as <-. apply andb_prop in E2. lia. }
  destruct ((65 <=? n)%Z && (n <=? 70)%Z) eqn:E3.
  { intros H. injection H as <-. apply andb_prop in E3. lia. }
  discriminate.
Qed.

Lemma hex_digit_not_hash (c : ascii) (v : Z) :
  hex_val c = Some v -> Ascii.eqb c "#"%char = false.
Proof.
  intros H. destruct (Ascii.eqb c "#"%char) eqn:E; [| reflexivity].
  apply Ascii.eqb_eq in E. subst c. discriminate H.
Qed.

Lemma lstrip_hash_hashes (n : nat) (h : string) :
  lstrip_hash (hashes n ++ h) = lstrip_hash h.
Proof. induction n as [| n IH]; [reflexivity | exact IH]. Qed.

Lemma substring_none (s : string) : substring 0 0 s = EmptyString.
Proof. destruct s; reflexivity. Qed.

Lemma byte_unit (x y : Z) :
  (0 <= x <= 15)%Z -> (0 <= y <= 15)%Z -> 0 <= IZR (16 * x + y) / 255.0 <= 1.
Proof.
  intros Hx Hy.
  assert (H0 : (0 <= 16 * x + y)%Z) by lia.
  assert (H1 : (16 * x + y <= 255)%Z) by lia.
  apply IZR_le in H0, H1. lra.
Qed.

(** X15: given six hexadecimal digits, with any number of '#' in front
    and anything behind, [hex2rgb] returns the three bytes they spell,
    each divided by 255 and so between 0 and 1; one more '#' in front
    never changes the result; and a string that keeps at most four
    characters after the stripping raises ValueError. *)
Theorem hex2rgb_six_digits
  (n : nat) (a b c d e f : ascii) (va vb vc vd ve vf : Z) (tail : string) :
  hex_val a = Some va -> hex_val b = Some vb -> hex_val c = Some vc ->
  hex_val d = Some vd -> hex_val e = Some ve -> hex_val f = Some vf ->
  hex2rgb (hashes n ++
           String a (String b (String c (String d (String e (String f tail))))))
    = Some (IZR (16 * va + vb) / 255.0, IZR (16 * vc + vd) / 255.0,
            IZR (16 * ve + vf) / 255.0) /\
  0 <= IZR (16 * va + vb) / 255.0 <= 1 /\
  0 <= IZR (16 * vc + vd) / 255.0 <= 1 /\
  0 <= IZR (16 * ve + vf) / 255.0 <= 1 /\
  (forall h, hex2rgb (String "#" h) = hex2rgb h) /\
  (forall h, (String.length (lstrip_hash h) <= 4)%nat -> hex2rgb h = None).
Proof.
  intros Ha Hb Hc Hd He Hf.
  split.
  { unfold hex2rgb. rewrite lstrip_hash_hashes. cbn [lstrip_hash].
    rewrite (hex_digit_not_hash a va Ha). cbn [substring].
    rewrite !substring_none. cbn [int16].
    rewrite Ha, Hb, Hc, Hd, He, Hf. reflexivity. }
  split; [apply byte_unit; eapply hex_val_range; eassumption |].
  split; [apply byte_unit; eapply hex_val_range; eassumption |].
  split; [apply byte_unit; eapply hex_val_range; eassumption |].
  split; [reflexivity |].
  intros h Hlen. unfold hex2rgb.
  destruct (lstrip_hash h) as [| c1 [| c2 [| c3 [| c4 [| c5 s]]]]];
    cbn [String.length] in Hlen; try lia; cbn [substring];
    rewrite ?substring_none;
    repeat match goal with
           | |- context [match int16 (String ?x ?y) with _ => _ end] =>
               destruct (int16 (String x y))
           end; reflexivity.
Qed.

Lemma hex2rgb_six_digits_witness :
  hex2rgb GREEN
    = Some (IZR (16 * 6 + 14) / 255.0, IZR (16 * 14 + 8) / 255.0,
            IZR (16 * 7 + 10) / 255.0) /\
  0 <= IZR (16 * 6 + 14) / 255.0 <= 1.
Proof.
  destruct (hex2rgb_six_digits 1 "6" "E" "E" "8" "7" "A" 6 14 14 8 7 10 EmptyString
              eq_refl eq_refl eq_refl eq_refl eq_refl eq_refl)
    as (H & H1 & _).
  split; [exact H | exact H1].
Defined.

(** ** The fan staircase of the chart *)

(** X16: with the default stage percentages 40, 70 and 100, an ordered
    threshold table and an NH3 reading no higher than its first
    threshold, the staircase of chart 1 shows the airflow that the
    autopilot would choose on every CO2 value that is not a threshold.
    On a CO2 value equal to the threshold of stage 1, 2 or 3 the
    staircase, which compares with [>=], shows the percentage of that
    stage or of a higher one, while the autopilot, which compares with
    [>], returns the base or the percentage of a lower stage; with
    strictly rising thresholds these are exactly the stage's percentage
    and that of the stage below.  A threshold list with fewer than four
    entries raises IndexError; with four entries the staircase has one
    step for every value of the curve. *)
Theorem chart_staircase_vs_autopilot
  (g : Globals) (c0 p0 : Z) (co2 nh3 day : R) :
  table_ordered g -> nh3 <= IZR (NH3_S1 g) ->
  (co2 <> IZR (CO2_S1 g) -> co2 <> IZR (CO2_S2 g) -> co2 <> IZR (CO2_S3 g) ->
   exists p,
     fan_step [c0; CO2_S1 g; CO2_S2 g; CO2_S3 g] [p0; 40; 70; 100]%Z co2 = Some p /\
     IZR p = autopilot_flow g co2 nh3 day (IZR p0)) /\
  (co2 = IZR (CO2_S1 g) ->
   (exists p,
      fan_step [c0; CO2_S1 g; CO2_S2 g; CO2_S3 g] [p0; 40; 70; 100]%Z co2 = Some p /\
      (p = 40 \/ p = 70 \/ p = 100)%Z) /\
   autopilot_flow g co2 nh3 day (IZR p0) = IZR p0 /\
   ((CO2_S1 g < CO2_S2 g)%Z ->
    fan_step [c0; CO2_S1 g; CO2_S2 g; CO2_S3 g] [p0; 40; 70; 100]%Z co2
      = Some 40%Z)) /\
  (co2 = IZR (CO2_S2 g) ->
   (exists p,
      fan_step [c0; CO2_S1 g; CO2_S2 g; CO2_S3 g] [p0; 40; 70; 100]%Z co2 = Some p /\
      (p = 70 \/ p = 100)%Z) /\
   (autopilot_flow g co2 nh3 day (IZR p0) = IZR p0 \/
    autopilot_flow g co2 nh3 day (IZR p0) = 40.0) /\
   ((CO2_S1 g < CO2_S2 g)%Z -> (CO2_S2 g < CO2_S3 g)%Z ->
    fan_step [c0; CO2_S1 g; CO2_S2 g; CO2_S3 g] [p0; 40; 70; 100]%Z co2
      = Some 70%Z /\
    autopilot_flow g co2 nh3 day (IZR p0) = 40.0)) /\
  (co2 = IZR (CO2_S3 g) ->
   fan_step [c0; CO2_S1 g; CO2_S2 g; CO2_S3 g] [p0; 40; 70; 100]%Z co2
     = Some 100%Z /\
   (autopilot_flow g co2 nh3 day (IZR p0) = IZR p0 \/
    autopilot_flow g co2 nh3 day (IZR p0) = 40.0 \/
    autopilot_flow g co2 nh3 day (IZR p0) = 70.0) /\
   ((CO2_S2 g < CO2_S3 g)%Z ->
    autopilot_flow g co2 nh3 day (IZR p0) = 70.0)) /\
  (forall stufen_co2 stufen_pct v,
     (length stufen_co2 < 4)%nat -> fan_step stufen_co2 stufen_pct v = None) /\
  (forall c1_arr, exists ps,
     fan_step_arr [c0; CO2_S1 g; CO2_S2 g; CO2_S3 g] [p0; 40; 70; 100]%Z c1_arr
       = Some ps /\
     length ps = length c1_arr).
Proof.
  intros [[Hc12 Hc23] [Hn12 Hn23]] Hnh3.
  pose proof (IZR_le _ _ Hc12) as Rc12. pose proof (IZR_le _ _ Hc23) as Rc23.
  pose proof (IZR_le _ _ Hn12) as Rn12. pose proof (IZR_le _ _ Hn23) as Rn23.
  split; [| split; [| split; [| split; [| split]]]].
  - intros H1 H2 H3. unfold fan_step, autopilot_flow. cbn [nth_error].
    decide_cmp; cbn [orb]; eexists; (split; [reflexivity |]); try lra.
  - intros Heq. split; [| split].
    + unfold fan_step. cbn [nth_error]. decide_cmp; eexists;
        (split; [reflexivity |]); first [lia | exfalso; lra].
    + unfold autopilot_flow. decide_cmp; cbn [orb]; first [reflexivity | lra].
    + intros Hlt. apply IZR_lt in Hlt. unfold fan_step. cbn [nth_error].
      decide_cmp; first [reflexivity | exfalso; lra].
  - intros Heq. split; [| split].
    + unfold fan_step. cbn [nth_error]. decide_cmp; eexists;
        (split; [reflexivity |]); first [lia | exfalso; lra].
    + unfold autopilot_flow. decide_cmp; cbn [orb];
        first [left; reflexivity | right; reflexivity | exfalso; lra].
    + intros Hlt1 Hlt2. apply IZR_lt in Hlt1, Hlt2.
      unfold fan_step, autopilot_flow. cbn [nth_error].
      decide_cmp; cbn [orb]; first [split; reflexivity | exfalso; lra].
  - intros Heq. split; [| split].
    + unfold fan_step. cbn [nth_error].
      decide_cmp; first [reflexivity | exfalso; lra].
    + unfold autopilot_flow. decide_cmp; cbn [orb];
        first [left; reflexivity | right; left; reflexivity
              | right; right; reflexivity | exfalso; lra].
    + intros Hlt. apply IZR_lt in Hlt. unfold autopilot_flow.
      decide_cmp; cbn [orb]; first [reflexivity | exfalso; lra].
  - intros sc sp v Hlen. unfold fan_step.
    destruct sc as [| t0 [| t1 [| t2 [| t3 rest]]]];
      cbn [length] in Hlen; try lia; reflexivity.
  - induction c1_arr as [| v rest [ps [IH Hlen]]].
    + exists []. split; reflexivity.
    + assert (Hstep : exists p,
                fan_step [c0; CO2_S1 g; CO2_S2 g; CO2_S3 g] [p0; 40; 70; 100]%Z v
                = Some p).
      { unfold fan_step. cbn [nth_error]. decide_cmp; eexists; reflexivity. }
      destruct Hstep as [p Hp]. exists (p :: ps). cbn [fan_step_arr].
      rewrite Hp, IH. split; [reflexivity | cbn [length]; now rewrite Hlen].
Qed.

Lemma chart_staircase_vs_autopilot_witness :
  (5000 <> IZR (CO2_S1 default_globals) -> 5000 <> IZR (CO2_S2 default_globals) ->
   5000 <> IZR (CO2_S3 default_globals) ->
   exists p,
     fan_step [420; CO2_S1 default_globals; CO2_S2 default_globals;
               CO2_S3 default_globals]%Z [20; 40; 70; 100]%Z 5000 = Some p /\
     IZR p = autopilot_flow default_globals 5000 5 1 (IZR 20)) /\
  (5000 = IZR (CO2_S1 default_globals) ->
   (exists p,
      fan_step [420; CO2_S1 default_globals; CO2_S2 default_globals;
                CO2_S3 default_globals]%Z [20; 40; 70; 100]%Z 5000 = Some p /\
      (p = 40 \/ p = 70 \/ p = 100)%Z) /\
   autopilot_flow default_globals 5000 5 1 (IZR 20) = IZR 20 /\
   ((CO2_S1 default_globals < CO2_S2 default_globals)%Z ->
    fan_step [420; CO2_S1 default_globals; CO2_S2 default_globals;
              CO2_S3 default_globals]%Z [20; 40; 70; 100]%Z 5000
      = Some 40%Z)) /\
  (5000 = IZR (CO2_S2 default_globals) ->
   (exists p,
      fan_step [420; CO2_S1 default_globals; CO2_S2 default_globals;
                CO2_S3 default_globals]%Z [20; 40; 70; 100]%Z 5000 = Some p /\
      (p = 70 \/ p = 100)%Z) /\
   (autopilot_flow default_globals 5000 5 1 (IZR 20) = IZR 20 \/
    autopilot_flow default_globals 5000 5 1 (IZR 20) = 40.0) /\
   ((CO2_S1 default_globals < CO2_S2 default_globals)%Z ->
    (CO2_S2 default_globals < CO2_S3 default_globals)%Z ->
    fan_step [420; CO2_S1 default_globals; CO2_S2 default_globals;
              CO2_S3 default_globals]%Z [20; 40; 70; 100]%Z 5000
      = Some 70%Z /\
    autopilot_flow default_globals 5000 5 1 (IZR 20) = 40.0)) /\
  (5000 = IZR (CO2_S3 default_globals) ->
   fan_step [420; CO2_S1 default_globals; CO2_S2 default_globals;
             CO2_S3 default_globals]%Z [20; 40; 70; 100]%Z 5000
     = Some 100%Z /\
   (autopilot_flow default_globals 5000 5 1 (IZR 20) = IZR 20 \/
    autopilot_flow default_globals 5000 5 1 (IZR 20) = 40.0 \/
    autopilot_flow default_globals 5000 5 1 (IZR 20) = 70.0) /\
   ((CO2_S2 default_globals < CO2_S3 default_globals)%Z ->
    autopilot_flow default_globals 5000 5 1 (IZR 20) = 70.0)) /\
  (forall stufen_co2 stufen_pct v,
     (length stufen_co2 < 4)%nat -> fan_step stufen_co2 stufen_pct v = None) /\
  (forall c1_arr, exists ps,
     fan_step_arr [420; CO2_S1 default_globals; CO2_S2 default_globals;
                   CO2_S3 default_globals]%Z [20; 40; 70; 100]%Z c1_arr
       = Some ps /\
     length ps = length c1_arr).
Proof.
  apply (chart_staircase_vs_autopilot default_globals 420 20 5000 5 1).
  - unfold table_ordered. cbn. lia.
  - cbn. lra.
Defined.
